(** * Segmentation-to-annotation export: predict_with_jsons_cityscapes.py

    A shallow embedding of the export pipeline of
    [predict_with_jsons_cityscapes.py]: the workload partitioner
    [partition_list], the JSON encoder hook [NpEncoder.default], the
    per-class polygon collection [get_polygons_for_all_classes] and the
    record-assembling loop of [predict].

    Python values are modelled as follows.
    - Python [int] is [Z]; a list is a Rocq [list]; a [str] is a [string].
    - A raised exception is the [Raise] constructor of [result]; the
      exceptions the modelled code can raise itself are listed in [exn].
    - A [dict] is an association list in insertion order, because
      [dict.items()] iterates in insertion order and that order fixes the
      order (and therefore the ids) of the annotation records.
    - The segmentation network and the contour tracer of [eiseg] are
      external: they are the methods of the class [Collaborators]. *)

From Stdlib Require Import List ZArith Lia String Ascii Bool Arith FinFun Sorted.
Import ListNotations.

Set Warnings "-register-all".

Open Scope Z_scope.

(** ** Exceptions and results *)

Inductive exn : Type :=
| ValueError
| ZeroDivisionError
| IndexError
| NameError
| TypeError
| RecursionError.

Inductive result (A : Type) : Type :=
| Ok (a : A)
| Raise (e : exn).

Arguments Ok {A} a.
Arguments Raise {A} e.

Definition bind {A B : Type} (r : result A) (k : A -> result B) : result B :=
  match r with
  | Ok a => k a
  | Raise e => Raise e
  end.

Notation "x <- r ;; k" := (bind r (fun x => k))
  (at level 61, r at next level, right associativity).

(** ** Python built-ins used by the pipeline *)

Module Py.

(** [len(l)] as a Python int. *)
Definition len {A : Type} (l : list A) : Z := Z.of_nat (List.length l).

(** [int(math.ceil(a / float(b)))] for [b <> 0], within the range of
    exact floats.  The float quotient is exact enough for the ceiling to
    be the mathematical one whenever both operands are below 2^53 in size,
    which every list length is.  For a [b] beyond the largest double
    [float(b)] raises [OverflowError]; that path is not modelled, and the
    properties that speak of every worker count carry the bound
    [float_exact]. *)
Definition ceil_div (a b : Z) : Z := - ((- a) / b).

(** [range(start, stop, step)]: [ValueError] on a zero step, otherwise
    the arithmetic progression from [start] strictly before [stop]. *)
Definition range_len (start stop step : Z) : nat :=
  if 0 <? step then
    if start <? stop then Z.to_nat ((stop - start - 1) / step + 1) else O
  else
    if stop <? start then Z.to_nat ((start - stop - 1) / (- step) + 1) else O.

Definition range (start stop step : Z) : result (list Z) :=
  if step =? 0 then Raise ValueError
  else Ok (map (fun k => start + Z.of_nat k * step)
               (seq 0 (range_len start stop step))).

(** [range(stop)] with a literal non-negative [stop]. *)
Definition range_upto (stop : nat) : list Z := map Z.of_nat (seq 0 stop).

(** A slice bound, as [PySlice_AdjustIndices] clamps it for step 1. *)
Definition clamp (n k : Z) : Z :=
  if k <? 0 then Z.max 0 (k + n) else Z.min k n.

(** [l[i:j]] *)
Definition slice {A : Type} (l : list A) (i j : Z) : list A :=
  let lo := clamp (len l) i in
  let hi := clamp (len l) j in
  firstn (Z.to_nat (hi - lo)) (skipn (Z.to_nat lo) l).

(** [l[i]] for a rank-like index [i >= 0]: [IndexError] out of range. *)
Definition getitem {A : Type} (l : list A) (i : nat) : result A :=
  match nth_error l i with
  | Some a => Ok a
  | None => Raise IndexError
  end.

(** [s[0]] on a string. *)
Definition str_head (s : string) : result ascii :=
  match s with
  | EmptyString => Raise IndexError
  | String c _ => Ok c
  end.

(** [s[1:]] on a string. *)
Definition str_tail (s : string) : string :=
  match s with
  | EmptyString => EmptyString
  | String _ s' => s'
  end.

(** [s.replace(old, new)] for a non-empty [old]: scan left to right,
    replacing non-overlapping occurrences.  [skip] counts the characters
    of the occurrence just matched that are still to be dropped. *)
Fixpoint replace_from (old new : string) (skip : nat) (s : string) : string :=
  match s with
  | EmptyString => EmptyString
  | String c s' =>
      match skip with
      | S k => replace_from old new k s'
      | O =>
          if String.prefix old s
          then String.append new (replace_from old new (String.length old - 1) s')
          else String c (replace_from old new O s')
      end
  end.

(** [s.replace('', new)]: [new] before every character and at the end. *)
Fixpoint intersperse (new s : string) : string :=
  match s with
  | EmptyString => new
  | String c s' => String.append new (String c (intersperse new s'))
  end.

Definition str_replace (s old new : string) : string :=
  match old with
  | EmptyString => intersperse new s
  | _ => replace_from old new O s
  end.

(** [s.rfind(c)] scanning from position [pos], [last] being the answer so
    far ([-1] for none). *)
Fixpoint rfind_from (c : ascii) (s : string) (pos last : Z) : Z :=
  match s with
  | EmptyString => last
  | String d s' => rfind_from c s' (pos + 1) (if Ascii.eqb d c then pos else last)
  end.

Definition rfind (c : ascii) (s : string) : Z := rfind_from c s 0 (-1).

(** [os.path.basename] of [posixpath]:
    [i = p.rfind('/') + 1; return p[i:]]. *)
Definition basename (p : string) : string :=
  let i := Z.to_nat (rfind "/"%char p + 1) in
  String.substring i (String.length p - i) p.

End Py.

(** ** Workload partitioner

<<
def partition_list(arr, m):
    # docstring: split the list 'arr' into m pieces
    n = int(math.ceil(len(arr) / float(m)))
    return [arr[i:i + n] for i in range(0, len(arr), n)]
>> *)

Definition partition_list {A : Type} (arr : list A) (m : Z)
  : result (list (list A)) :=
  if m =? 0 then Raise ZeroDivisionError
  else
    let n := Py.ceil_div (Py.len arr) m in
    r <- Py.range 0 (Py.len arr) n ;;
    Ok (map (fun i => Py.slice arr i (i + n)) r).

(** ** Python values reaching the JSON encoder *)

(** A Python [float], by its IEEE-754 binary64 bit pattern.  The pipeline
    never computes with floats; it only carries them to the encoder. *)
Inductive pyfloat : Type :=
| FloatBits (bits : Z).

(** An element of a numeric numpy buffer: the dtypes whose [tolist]
    gives Python ints, floats and bools.  Arrays of objects, complex
    numbers, bytes, [datetime64] or [longdouble] values are outside the
    model. *)
Inductive npelem : Type :=
| ElemInt (z : Z)
| ElemFloat (f : pyfloat)
| ElemBool (b : bool).

(** A numeric [numpy.ndarray]: a zero-dimensional array holding one
    element, or an array whose first axis indexes the given sub-arrays. *)
Inductive ndarray : Type :=
| Arr0 (e : npelem)
| ArrAxis (items : list ndarray).

Inductive pyobj : Type :=
| PyNone
| PyBool (b : bool)
| PyInt (z : Z)
| PyFloat (f : pyfloat)
| PyStr (s : string)
| PyList (items : list pyobj)
| PyDict (entries : list (string * pyobj))
| NpInteger (z : Z)             (* an instance of np.integer *)
| NpFloating (double : bool) (f : pyfloat)
    (* an instance of np.floating, by float(obj); [double] marks np.float64,
       which is a subclass of Python's float as well *)
| NpArray (a : ndarray)         (* an instance of np.ndarray *)
| PyDatetime (iso : string)     (* a datetime.datetime, by its strftime text *)
| PyOther (type_name : string). (* an instance of any other type *)

(** [ndarray.item()] of one element. *)
Definition elem_item (e : npelem) : pyobj :=
  match e with
  | ElemInt z => PyInt z
  | ElemFloat f => PyFloat f
  | ElemBool b => PyBool b
  end.

(** [ndarray.tolist()] *)
Fixpoint tolist (a : ndarray) : pyobj :=
  match a with
  | Arr0 e => elem_item e
  | ArrAxis items => PyList (map tolist items)
  end.

(** The text [json.dumps] produces, by its syntax tree. *)
Inductive json : Type :=
| JNull
| JBool (b : bool)
| JInt (z : Z)
| JFloat (f : pyfloat)
| JStr (s : string)
| JArr (items : list json)
| JObj (members : list (string * json)).

(** ** The module's global names

    Names bound at module level by the [import] statements and the
    [def]/[class] statements of the file, in source order. *)
Definition module_globals : list string :=
  [ "os"; "math"; "json"; "argparse"; "cv2"; "np"; "paddle";
    "utils"; "infer"; "get_polygon"; "logger"; "progbar"; "visualize";
    "manager"; "Config"; "SegBuilder"; "get_sys_env"; "get_image_list";
    "predict"; "Compose";
    "parse_args"; "merge_test_config"; "mkdir"; "partition_list";
    "preprocess"; "NpEncoder"; "get_polygons_for_all_classes"; "main"
  ]%string.

(** Evaluating a global name that no builtin provides. *)
Definition load_global (name : string) : result unit :=
  if existsb (String.eqb name) module_globals then Ok tt else Raise NameError.

(** ** NpEncoder

<<
class NpEncoder(json.JSONEncoder):
    def default(self, obj):
        if isinstance(obj, np.integer):
            return int(obj)
        elif isinstance(obj, np.floating):
            return float(obj)
        elif isinstance(obj, np.ndarray):
            return obj.tolist()
        elif isinstance(obj, datetime.datetime):
            return obj.strftime('%Y-%m-%dT%H:%M:%S')
        else:
            return super(NpEncoder, self).default(obj)
>> *)

Module NpEncoder.

Definition default (obj : pyobj) : result pyobj :=
  match obj with
  | NpInteger z => Ok (PyInt z)
  | NpFloating _ f => Ok (PyFloat f)
  | NpArray a => Ok (tolist a)
  | _ =>
      _ <- load_global "datetime" ;;
      match obj with
      | PyDatetime iso => Ok (PyStr iso)
      | _ => Raise TypeError   (* JSONEncoder.default *)
      end
  end.

(** [traverse f l]: apply [f] to the items in order, stopping at the first
    exception. *)
Fixpoint traverse {A B : Type} (f : A -> result B) (l : list A)
  : result (list B) :=
  match l with
  | [] => Ok []
  | a :: l' => b <- f a ;; bs <- traverse f l' ;; Ok (b :: bs)
  end.

(** [JSONEncoder.iterencode] with this class's [default]: the types JSON
    knows are written directly, any other object goes through [default]
    and its result is encoded in turn.  [limit] is the interpreter's
    remaining recursion depth.  Dictionary keys are strings, as they are
    in every dictionary [predict] builds. *)
Fixpoint iterencode (limit : nat) (o : pyobj) : result json :=
  match limit with
  | O => Raise RecursionError
  | S limit' =>
      match o with
      | PyNone => Ok JNull
      | PyBool b => Ok (JBool b)
      | PyInt z => Ok (JInt z)
      | PyFloat f => Ok (JFloat f)
      | NpFloating true f => Ok (JFloat f)   (* isinstance(o, float) *)
      | PyStr s => Ok (JStr s)
      | PyList items =>
          js <- traverse (iterencode limit') items ;; Ok (JArr js)
      | PyDict entries =>
          ms <- traverse
                  (fun kv => j <- iterencode limit' (snd kv) ;; Ok (fst kv, j))
                  entries ;;
          Ok (JObj ms)
      | _ =>
          o' <- default o ;; iterencode limit' o'
      end
  end.

(** [json.dumps(obj, cls=NpEncoder)] *)
Definition dumps (limit : nat) (obj : pyobj) : result json :=
  iterencode limit obj.

End NpEncoder.

(** ** Label maps and masks *)

(** A two-dimensional integer array, as its list of rows. *)
Definition array2 : Type := list (list Z).

(** [a.shape] of a two-dimensional array: (rows, columns).  An array
    without rows is given zero columns. *)
Definition shape (a : array2) : Z * Z :=
  (Py.len a, match a with [] => 0 | row :: _ => Py.len row end).

(** [a[r][c]] *)
Definition pixel (a : array2) (r c : nat) : option Z :=
  match nth_error a r with
  | Some row => nth_error row c
  | None => None
  end.

(** [paddle.squeeze(a).shape]: the axes of size one are dropped, so a
    label map of one row or one column has fewer than two axes left. *)
Definition squeezed_shape (a : array2) : list Z :=
  filter (fun n => negb (n =? 1)) [fst (shape a); snd (shape a)].

(** The label map keeps both axes through [paddle.squeeze]. *)
Definition keeps_two_axes (a : array2) : bool :=
  negb (fst (shape a) =? 1) && negb (snd (shape a) =? 1).

(** [a.astype(np.uint8)]: every element reduced modulo 256. *)
Definition astype_uint8 (a : array2) : array2 :=
  map (map (fun v => v mod 256)) a.

(** [np.where(a == k, x, y)] *)
Definition where_eq (a : array2) (k x y : Z) : array2 :=
  map (map (fun v => if v =? k then x else y)) a.

(** ** Polygons and the external collaborators *)

(** A polygon as the tracer returns it: a sequence of points, each point a
    sequence of coordinates.  Coordinates are whatever numbers the tracer
    produces, numpy scalars included. *)
Definition polygon : Type := list (list pyobj).

(** One call of the tracer: the mask and the [img_size] it was given
    ([building] is always [False]). *)
Definition tracer_call : Type := (array2 * (Z * Z))%type.

(** What the pipeline takes from outside:
    - [inference im_path]: preprocessing and the network, the label map
      of the image by rows and columns, before [paddle.squeeze] drops the
      axes of size one;
    - [get_polygon mask img_size]: the contour tracer of [eiseg], which
      returns [None] or a list of polygons;
    - [recursion_limit]: the nesting depth the interpreter still allows
      the JSON encoder when it starts on the document, that is, what is
      left of the recursion limit below the frames of the caller and of
      [json.dumps] itself. *)
Class Collaborators : Type := {
  inference : string -> array2;
  get_polygon : array2 -> Z * Z -> option (list polygon);
  recursion_limit : nat
}.

(** ** Dictionaries with integer keys, in insertion order *)

Module Dict.

Definition t (V : Type) : Type := list (Z * V).

(** [k in d] *)
Definition mem {V : Type} (k : Z) (d : t V) : bool :=
  existsb (fun kv => fst kv =? k) d.

(** [d[k]], with [default] standing for the [KeyError] case, which the
    pipeline never reaches. *)
Fixpoint get {V : Type} (k : Z) (d : t V) (default : V) : V :=
  match d with
  | [] => default
  | (k', v) :: d' => if k' =? k then v else get k d' default
  end.

(** [d[k] = v]: an existing key keeps its position, a new key goes last. *)
Fixpoint set {V : Type} (k : Z) (v : V) (d : t V) : t V :=
  match d with
  | [] => [(k, v)]
  | (k', v') :: d' => if k' =? k then (k', v) :: d' else (k', v') :: set k v d'
  end.

(** [d.get(k)] as an option. *)
Fixpoint lookup {V : Type} (k : Z) (d : t V) : option V :=
  match d with
  | [] => None
  | (k', v) :: d' => if k' =? k then Some v else lookup k d'
  end.

End Dict.

(** ** Per-class polygon collection

<<
def get_polygons_for_all_classes(pred, img_size):
    all_polygons = {}
    for class_id in range(19):
        class_mask = np.where(pred == class_id, 255, 0).astype(np.uint8)
        class_polygons = get_polygon(class_mask, img_size=img_size, building=False)
        if class_polygons is not None:
            if class_id not in all_polygons:
                all_polygons[class_id] = []
            all_polygons[class_id].extend(class_polygons)
    return all_polygons
>> *)

Section Polygons.

Context `{Collaborators}.

(** The mask built for one class id. *)
Definition class_mask (pred : array2) (class_id : Z) : array2 :=
  astype_uint8 (where_eq pred class_id 255 0).

(** One iteration of the loop.  The state is [all_polygons] together with
    the calls made to the tracer so far. *)
Definition class_step (pred : array2) (img_size : Z * Z)
    (st : Dict.t (list polygon) * list tracer_call) (class_id : Z)
  : Dict.t (list polygon) * list tracer_call :=
  let '(all_polygons, calls) := st in
  let mask := class_mask pred class_id in
  let class_polygons := get_polygon mask img_size in
  let calls := calls ++ [(mask, img_size)] in
  match class_polygons with
  | Some ps =>
      let all_polygons :=
        if Dict.mem class_id all_polygons then all_polygons
        else Dict.set class_id [] all_polygons in
      let all_polygons :=
        Dict.set class_id (Dict.get class_id all_polygons [] ++ ps) all_polygons in
      (all_polygons, calls)
  | None => (all_polygons, calls)
  end.

(** The function with the trace of its tracer calls. *)
Definition get_polygons_traced (pred : array2) (img_size : Z * Z)
  : Dict.t (list polygon) * list tracer_call :=
  fold_left (class_step pred img_size) (Py.range_upto 19) ([], []).

Definition get_polygons_for_all_classes (pred : array2) (img_size : Z * Z)
  : Dict.t (list polygon) :=
  fst (get_polygons_traced pred img_size).

End Polygons.

(** ** Records of the annotation document *)

Record Category : Type := {
  cat_id : Z;
  cat_name : string;
  cat_color : list Z;
  cat_supercategory : string
}.

Record ImageRecord : Type := {
  img_id : Z;
  img_width : Z;
  img_height : Z;
  img_file_name : string;
  img_license : string;
  img_flickr_url : string;
  img_coco_url : string;
  img_date_captured : string
}.

Record AnnotationRecord : Type := {
  ann_id : Z;
  ann_iscrowd : Z;
  ann_image_id : Z;
  ann_category_id : Z;
  ann_segmentation : list (list pyobj);
  ann_area : Z;
  ann_bbox : list pyobj
}.

Record Document : Type := {
  doc_categories : list Category;
  doc_images : list ImageRecord;
  doc_annotations : list AnnotationRecord;
  doc_info : string;
  doc_licenses : list pyobj
}.

Definition mk_category (id : Z) (name : string) (r g b : Z) : Category :=
  {| cat_id := id; cat_name := name; cat_color := [r; g; b];
     cat_supercategory := EmptyString |}.

(** The category table [predict] appends entry by entry. *)
Definition categories : list Category :=
  [ mk_category 0 "road" 128 64 128;
    mk_category 1 "sidewalk" 244 35 232;
    mk_category 2 "building" 70 70 70;
    mk_category 3 "wall" 102 102 156;
    mk_category 4 "fence" 190 153 153;
    mk_category 5 "pole" 153 153 153;
    mk_category 6 "traffic_light" 250 170 30;
    mk_category 7 "traffic_sign" 220 220 0;
    mk_category 8 "vegetation" 107 142 35;
    mk_category 9 "terrain" 152 251 152;
    mk_category 10 "sky" 70 130 180;
    mk_category 11 "person" 220 20 60;
    mk_category 12 "rider" 255 0 0;
    mk_category 13 "car" 0 0 142;
    mk_category 14 "truck" 0 0 70;
    mk_category 15 "bus" 0 60 100;
    mk_category 16 "train" 0 80 100;
    mk_category 17 "motorcycle" 0 0 230;
    mk_category 18 "bicycle" 119 11 32 ].

(** The dictionaries handed to [json.dumps], key order as written. *)
Definition category_obj (c : Category) : pyobj :=
  PyDict [ ("id"%string, PyInt (cat_id c));
           ("name"%string, PyStr (cat_name c));
           ("color"%string, PyList (map PyInt (cat_color c)));
           ("supercategory"%string, PyStr (cat_supercategory c)) ].

Definition image_obj (im : ImageRecord) : pyobj :=
  PyDict [ ("id"%string, PyInt (img_id im));
           ("width"%string, PyInt (img_width im));
           ("height"%string, PyInt (img_height im));
           ("file_name"%string, PyStr (img_file_name im));
           ("license"%string, PyStr (img_license im));
           ("flickr_url"%string, PyStr (img_flickr_url im));
           ("coco_url"%string, PyStr (img_coco_url im));
           ("date_captured"%string, PyStr (img_date_captured im)) ].

Definition annotation_obj (a : AnnotationRecord) : pyobj :=
  PyDict [ ("id"%string, PyInt (ann_id a));
           ("iscrowd"%string, PyInt (ann_iscrowd a));
           ("image_id"%string, PyInt (ann_image_id a));
           ("category_id"%string, PyInt (ann_category_id a));
           ("segmentation"%string, PyList (map PyList (ann_segmentation a)));
           ("area"%string, PyInt (ann_area a));
           ("bbox"%string, PyList (ann_bbox a)) ].

Definition document_obj (d : Document) : pyobj :=
  PyDict [ ("categories"%string, PyList (map category_obj (doc_categories d)));
           ("images"%string, PyList (map image_obj (doc_images d)));
           ("annotations"%string, PyList (map annotation_obj (doc_annotations d)));
           ("info"%string, PyStr (doc_info d));
           ("licenses"%string, PyList (doc_licenses d)) ].

(** ** The saved name of an image

<<
if image_dir is not None:
    im_file = im_path.replace(image_dir, '')
else:
    im_file = os.path.basename(im_path)
if im_file[0] == '/' or im_file[0] == '\\':
    im_file = im_file[1:]
>> *)

Definition is_sep (c : ascii) : bool :=
  Ascii.eqb c "/"%char || Ascii.eqb c "\"%char.

Definition saved_name (image_dir : option string) (im_path : string)
  : result string :=
  let im_file :=
    match image_dir with
    | Some dir => Py.str_replace im_path dir EmptyString
    | None => Py.basename im_path
    end in
  c <- Py.str_head im_file ;;
  if is_sep c then Ok (Py.str_tail im_file) else Ok im_file.

(** ** The loop of [predict] *)

Section Predict.

Context `{Collaborators}.

(** [segmentation = [point for sublist in polygon for point in sublist]]
    and the append of one annotation. *)
Definition add_annotation (image_id class_id : Z)
    (annotations : list AnnotationRecord) (poly : polygon)
  : list AnnotationRecord :=
  let segmentation := List.concat poly in
  annotations ++
  [ {| ann_id := Py.len annotations + 1;
       ann_iscrowd := 0;
       ann_image_id := image_id;
       ann_category_id := class_id;
       ann_segmentation := [segmentation];
       ann_area := 0;
       ann_bbox := [] |} ].

(** [for polygon in class_polygons: ...] *)
Definition add_class (image_id : Z) (annotations : list AnnotationRecord)
    (item : Z * list polygon) : list AnnotationRecord :=
  fold_left (add_annotation image_id (fst item)) (snd item) annotations.

(** [for class_id, class_polygons in all_class_polygons.items(): ...] *)
Definition add_image_annotations (image_id : Z)
    (all_class_polygons : Dict.t (list polygon))
    (annotations : list AnnotationRecord) : list AnnotationRecord :=
  fold_left (add_class image_id) all_class_polygons annotations.

(** The body of the loop for the image at position [i] of the shard.  The
    overlay and pseudo-colour images it also writes do not touch the
    records and are left out.  [pred.shape[1]] and [pred.shape[0]] index
    the shape of the squeezed array, so a label map that lost an axis
    raises [IndexError] at the image record. *)
Definition process_image (image_dir : option string) (i : Z) (im_path : string)
    (st : list ImageRecord * list AnnotationRecord)
  : result (list ImageRecord * list AnnotationRecord) :=
  let '(images, annotations) := st in
  let pred := astype_uint8 (inference im_path) in
  let all_class_polygons := get_polygons_for_all_classes pred (shape pred) in
  im_file <- saved_name image_dir im_path ;;
  width <- Py.getitem (squeezed_shape pred) 1 ;;
  height <- Py.getitem (squeezed_shape pred) 0 ;;
  let image :=
    {| img_id := i + 1;
       img_width := width;
       img_height := height;
       img_file_name := im_file;
       img_license := EmptyString;
       img_flickr_url := EmptyString;
       img_coco_url := EmptyString;
       img_date_captured := EmptyString |} in
  let images := images ++ [image] in
  let annotations := add_image_annotations (i + 1) all_class_polygons annotations in
  Ok (images, annotations).

(** [for i, im_path in enumerate(shard): ...], from index [i] on. *)
Fixpoint predict_loop (image_dir : option string) (i : Z) (shard : list string)
    (st : list ImageRecord * list AnnotationRecord)
  : result (list ImageRecord * list AnnotationRecord) :=
  match shard with
  | [] => Ok st
  | im_path :: rest =>
      st' <- process_image image_dir i im_path st ;;
      predict_loop image_dir (i + 1) rest st'
  end.

(** What a completed invocation leaves behind: the assembled [json_data]
    and the text written to [annotations.json].  What happens to the file
    when the invocation fails is modelled by [predict_with_file]. *)
Record Run : Type := {
  json_data : Document;
  annotations_json : json
}.

(** [predict], for the process of rank [local_rank] among [nranks]. *)
Definition predict (nranks : Z) (local_rank : nat) (image_list : list string)
    (image_dir : option string) : result Run :=
  img_lists <- (if 1 <? nranks then partition_list image_list nranks
                else Ok [image_list]) ;;
  _ <- Py.getitem img_lists 0 ;;            (* len(img_lists[0]) *)
  shard <- Py.getitem img_lists local_rank ;;
  st <- predict_loop image_dir 0 shard ([], []) ;;
  let doc :=
    {| doc_categories := categories;
       doc_images := fst st;
       doc_annotations := snd st;
       doc_info := EmptyString;
       doc_licenses := [] |} in
  text <- NpEncoder.dumps recursion_limit (document_obj doc) ;;
  Ok {| json_data := doc; annotations_json := text |}.

End Predict.

(** ** What the encoder is specified to produce

    The specification's words: numpy integers become plain integers,
    numpy floating values plain floats, numpy arrays nested plain lists;
    every other supported value is written as it is. *)

Fixpoint array_json_spec (a : ndarray) : json :=
  match a with
  | Arr0 (ElemInt z) => JInt z
  | Arr0 (ElemFloat f) => JFloat f
  | Arr0 (ElemBool b) => JBool b
  | ArrAxis items => JArr (map array_json_spec items)
  end.

Fixpoint normalized_spec (o : pyobj) : json :=
  match o with
  | PyNone => JNull
  | PyBool b => JBool b
  | PyInt z => JInt z
  | PyFloat f => JFloat f
  | PyStr s => JStr s
  | PyList items => JArr (map normalized_spec items)
  | PyDict entries =>
      JObj (map (fun kv => let '(k, v) := kv in (k, normalized_spec v)) entries)
  | NpInteger z => JInt z
  | NpFloating _ f => JFloat f
  | NpArray a => array_json_spec a
  | PyDatetime _ => JNull
  | PyOther _ => JNull
  end.

(** A value whose non-standard parts are only numpy integers, numpy
    floating values and numpy arrays. *)
Fixpoint only_numpy_wrappers (o : pyobj) : bool :=
  match o with
  | PyList items => forallb only_numpy_wrappers items
  | PyDict entries =>
      forallb (fun kv => let '(_, v) := kv in only_numpy_wrappers v) entries
  | PyDatetime _ => false
  | PyOther _ => false
  | _ => true
  end.

(** An instance of [np.integer], [np.floating] or [np.ndarray]. *)
Definition is_numpy_wrapper (o : pyobj) : bool :=
  match o with
  | NpInteger _ | NpFloating _ _ | NpArray _ => true
  | _ => false
  end.

(** A value free of numpy wrappers and of any other non-JSON type. *)
Fixpoint plain (o : pyobj) : bool :=
  match o with
  | PyNone | PyBool _ | PyInt _ | PyFloat _ | PyStr _ => true
  | PyList items => forallb plain items
  | PyDict entries => forallb (fun kv => let '(_, v) := kv in plain v) entries
  | _ => false
  end.

(** Nesting depth, counting the extra encoder frame a wrapper costs. *)
Fixpoint array_depth (a : ndarray) : nat :=
  match a with
  | Arr0 _ => 1%nat
  | ArrAxis items => S (list_max (map array_depth items))
  end.

Fixpoint depth (o : pyobj) : nat :=
  match o with
  | PyList items => S (list_max (map depth items))
  | PyDict entries =>
      S (list_max (map (fun kv => let '(_, v) := kv in depth v) entries))
  | NpInteger _ => 2%nat
  | NpFloating _ _ => 2%nat
  | NpArray a => S (array_depth a)
  | PyDatetime _ => 2%nat
  | _ => 1%nat
  end.

(** Total number of polygons the tracer yields for one label map. *)
Definition polygons_of_class `{Collaborators} (pred : array2) (class_id : Z)
  : list polygon :=
  match get_polygon (class_mask pred class_id) (shape pred) with
  | Some ps => ps
  | None => []
  end.

Definition polygon_count `{Collaborators} (im_path : string) : nat :=
  let pred := astype_uint8 (inference im_path) in
  list_sum (map (fun c => List.length (polygons_of_class pred c))
                (Py.range_upto 19)).

Definition total_polygons `{Collaborators} (shard : list string) : nat :=
  list_sum (map polygon_count shard).

(** The dictionary [get_polygons_for_all_classes] is specified to
    return: one entry per class id whose tracer result is not [None], in
    ascending class order. *)
Definition entry_of `{Collaborators} (pred : array2) (img_size : Z * Z) (c : Z)
  : Dict.t (list polygon) :=
  match get_polygon (class_mask pred c) img_size with
  | Some ps => [(c, ps)]
  | None => []
  end.

Definition class_entries `{Collaborators} (pred : array2) (img_size : Z * Z)
  : Dict.t (list polygon) :=
  flat_map (entry_of pred img_size) (Py.range_upto 19).

(** Annotation ids run 1, 2, ... along the list. *)
Definition numbered (annotations : list AnnotationRecord) : Prop :=
  map ann_id annotations = map Z.of_nat (seq 1 (List.length annotations)).

(** What identifies an annotation apart from its [id]. *)
Definition ann_key (a : AnnotationRecord) : Z * Z * list (list pyobj) :=
  (ann_image_id a, ann_category_id a, ann_segmentation a).

(** The annotations one image is specified to emit: for every class in
    ascending order, every polygon of the class in the tracer's order. *)
Definition emitted_for_image `{Collaborators} (image_id : Z) (pred : array2)
  : list (Z * Z * list (list pyobj)) :=
  flat_map (fun c => map (fun poly => (image_id, c, [List.concat poly]))
                         (polygons_of_class pred c))
           (Py.range_upto 19).

(** The same for the images of a shard from position [i] on. *)
Fixpoint emitted_from `{Collaborators} (i : Z) (shard : list string)
  : list (Z * Z * list (list pyobj)) :=
  match shard with
  | [] => []
  | im_path :: rest =>
      emitted_for_image (i + 1) (astype_uint8 (inference im_path))
      ++ emitted_from (i + 1) rest
  end.

(** The shard [predict] processes: [img_lists[local_rank]]. *)
Definition select_shard (nranks : Z) (local_rank : nat)
    (image_list : list string) : result (list string) :=
  img_lists <- (if 1 <? nranks then partition_list image_list nranks
                else Ok [image_list]) ;;
  _ <- Py.getitem img_lists 0 ;;
  Py.getitem img_lists local_rank.

(** ** A small concrete run

    The 4x4 label map of the specification's scenario, and a tracer that
    returns one two-point polygon with numpy coordinates for every mask
    that has a foreground pixel and [None] for an all-background mask. *)

Module Demo.

Definition label_map : array2 :=
  [ [0; 0; 1; 1]; [0; 0; 1; 1]; [2; 2; 2; 2]; [2; 2; 2; 2] ].

Definition has_foreground (mask : array2) : bool :=
  existsb (existsb (fun v => v =? 255)) mask.

Definition tracer (mask : array2) (img_size : Z * Z) : option (list polygon) :=
  if has_foreground mask
  then Some [ [ [NpInteger 0; NpInteger 0]; [NpInteger (snd img_size); PyInt (fst img_size)] ] ]
  else None.

Definition world : Collaborators :=
  {| inference := fun _ => label_map;
     get_polygon := tracer;
     recursion_limit := 1000 |}.

Definition images : list string := [ "data/a.png"; "data/b.png" ]%string.

End Demo.

(** ** Test configuration

<<
def merge_test_config(cfg, args):
    test_config = cfg.test_config
    if 'aug_eval' in test_config:
        test_config.pop('aug_eval')
    if args.aug_pred:
        test_config['aug_pred'] = args.aug_pred
        test_config['scales'] = args.scales
        test_config['flip_horizontal'] = args.flip_horizontal
        test_config['flip_vertical'] = args.flip_vertical
    if args.is_slide:
        test_config['is_slide'] = args.is_slide
        test_config['crop_size'] = args.crop_size
        test_config['stride'] = args.stride
    if args.custom_color:
        test_config['custom_color'] = args.custom_color
    return test_config
>> *)

(** Dictionaries with string keys, in insertion order. *)
Module StrDict.

Definition t (V : Type) : Type := list (string * V).

(** [k in d] *)
Definition mem {V : Type} (k : string) (d : t V) : bool :=
  existsb (fun kv => String.eqb (fst kv) k) d.

(** [d.get(k)] as an option. *)
Fixpoint lookup {V : Type} (k : string) (d : t V) : option V :=
  match d with
  | [] => None
  | (k', v) :: d' => if String.eqb k' k then Some v else lookup k d'
  end.

(** [d[k] = v]: an existing key keeps its position, a new key goes last. *)
Fixpoint set {V : Type} (k : string) (v : V) (d : t V) : t V :=
  match d with
  | [] => [(k, v)]
  | (k', v') :: d' =>
      if String.eqb k' k then (k', v) :: d' else (k', v') :: set k v d'
  end.

(** [d.pop(k)] for a key that is present: the entry is removed. *)
Fixpoint pop {V : Type} (k : string) (d : t V) : t V :=
  match d with
  | [] => []
  | (k', v') :: d' => if String.eqb k' k then d' else (k', v') :: pop k d'
  end.

(** The keys of a dictionary are distinct. *)
Definition wf {V : Type} (d : t V) : Prop := NoDup (map fst d).

End StrDict.

(** The parsed command line, by the types [parse_args] gives the options:
    [store_true] flags are booleans, [--scales] is the float [1.0] or a
    list of floats, [--crop_size], [--stride] and [--custom_color] are
    [None] or lists of ints. *)
Record Args : Type := {
  aug_pred : bool;
  scales : pyobj;
  flip_horizontal : bool;
  flip_vertical : bool;
  is_slide : bool;
  crop_size : option (list Z);
  stride : option (list Z);
  custom_color : option (list Z)
}.

(** An optional list of ints as a Python value. *)
Definition int_list_obj (l : option (list Z)) : pyobj :=
  match l with
  | None => PyNone
  | Some zs => PyList (map PyInt zs)
  end.

(** Truth value of [None] or a list. *)
Definition list_truthy (l : option (list Z)) : bool :=
  match l with
  | Some (_ :: _) => true
  | _ => false
  end.

Definition merge_test_config (test_config : StrDict.t pyobj) (args : Args)
  : StrDict.t pyobj :=
  let test_config :=
    if StrDict.mem "aug_eval" test_config
    then StrDict.pop "aug_eval" test_config
    else test_config in
  let test_config :=
    if aug_pred args then
      let test_config := StrDict.set "aug_pred" (PyBool (aug_pred args)) test_config in
      let test_config := StrDict.set "scales" (scales args) test_config in
      let test_config :=
        StrDict.set "flip_horizontal" (PyBool (flip_horizontal args)) test_config in
      StrDict.set "flip_vertical" (PyBool (flip_vertical args)) test_config
    else test_config in
  let test_config :=
    if is_slide args then
      let test_config := StrDict.set "is_slide" (PyBool (is_slide args)) test_config in
      let test_config :=
        StrDict.set "crop_size" (int_list_obj (crop_size args)) test_config in
      StrDict.set "stride" (int_list_obj (stride args)) test_config
    else test_config in
  if list_truthy (custom_color args)
  then StrDict.set "custom_color" (int_list_obj (custom_color args)) test_config
  else test_config.

(** The entries [merge_test_config] writes for the given command line,
    in the order it writes them. *)
Definition written_entries (args : Args) : list (string * pyobj) :=
  (if aug_pred args
   then [ ("aug_pred"%string, PyBool (aug_pred args));
          ("scales"%string, scales args);
          ("flip_horizontal"%string, PyBool (flip_horizontal args));
          ("flip_vertical"%string, PyBool (flip_vertical args)) ]
   else [])
  ++ (if is_slide args
      then [ ("is_slide"%string, PyBool (is_slide args));
             ("crop_size"%string, int_list_obj (crop_size args));
             ("stride"%string, int_list_obj (stride args)) ]
      else [])
  ++ (if list_truthy (custom_color args)
      then [ ("custom_color"%string, int_list_obj (custom_color args)) ]
      else []).

(** The configuration once [aug_eval] is dealt with, and one write. *)
Definition without_aug_eval (d : StrDict.t pyobj) : StrDict.t pyobj :=
  if StrDict.mem "aug_eval" d then StrDict.pop "aug_eval" d else d.

Definition write_entry (d : StrDict.t pyobj) (kv : string * pyobj)
  : StrDict.t pyobj :=
  StrDict.set (fst kv) (snd kv) d.

(** A command line for the examples: augmentation on, sliding window
    off, a custom colour map given. *)
Definition sample_args : Args :=
  {| aug_pred := true;
     scales := PyList [PyFloat (FloatBits 4607182418800017408)];
     flip_horizontal := true;
     flip_vertical := false;
     is_slide := false;
     crop_size := None;
     stride := None;
     custom_color := Some [0; 0; 0; 255; 0; 0] |}.

Definition sample_config : StrDict.t pyobj :=
  [ ("aug_eval"%string, PyBool true);
    ("scales"%string, PyFloat (FloatBits 4607182418800017408));
    ("is_slide"%string, PyBool true) ].

(** ** The annotation file

<<
open(
    json_saved_name, "w",
    encoding="utf-8").write(json.dumps(
        json_data, cls=NpEncoder))
>>

    [open] is evaluated before [json.dumps]: once the loop has finished
    the file is created or truncated, and it receives the text only if
    the encoder returns. *)

Inductive file_state : Type :=
| Untouched               (* never opened: as it was before the run *)
| Emptied                 (* opened for writing, nothing written *)
| Holds (text : json).    (* opened and written *)

(** [predict] with what it does to [annotations.json]. *)
Definition predict_with_file `{Collaborators}
    (nranks : Z) (local_rank : nat) (image_list : list string)
    (image_dir : option string) : file_state * result Run :=
  match (img_lists <- (if 1 <? nranks then partition_list image_list nranks
                       else Ok [image_list]) ;;
         _ <- Py.getitem img_lists 0 ;;
         shard <- Py.getitem img_lists local_rank ;;
         predict_loop image_dir 0 shard ([], [])) with
  | Raise e => (Untouched, Raise e)
  | Ok st =>
      let doc :=
        {| doc_categories := categories;
           doc_images := fst st;
           doc_annotations := snd st;
           doc_info := EmptyString;
           doc_licenses := [] |} in
      match NpEncoder.dumps recursion_limit (document_obj doc) with
      | Raise e => (Emptied, Raise e)
      | Ok text => (Holds text, Ok {| json_data := doc; annotations_json := text |})
      end
  end.

(** The same collaborators under another recursion limit. *)
Definition with_limit (w : Collaborators) (limit : nat) : Collaborators :=
  {| inference := @inference w;
     get_polygon := @get_polygon w;
     recursion_limit := limit |}.

(** An int that [float()] converts without rounding. *)
Definition float_exact (z : Z) : Prop := Z.abs z < 2 ^ 53.

(** ** Vocabulary of the further properties *)

(** [old] occurs in [s] at some position. *)
Fixpoint occurs (old s : string) : bool :=
  String.prefix old s
  || match s with
     | EmptyString => false
     | String _ s' => occurs old s'
     end.

(** The character [c] occurs in [s]. *)
Fixpoint contains_char (c : ascii) (s : string) : bool :=
  match s with
  | EmptyString => false
  | String d s' => Ascii.eqb d c || contains_char c s'
  end.

(** The coordinates held by the annotations of a document, in order. *)
Definition doc_coordinates (annotations : list AnnotationRecord) : list pyobj :=
  flat_map (fun a => List.concat (ann_segmentation a)) annotations.

(** The coordinates the tracer returns over a shard, in the order the
    loop meets them. *)
Definition image_coordinates `{Collaborators} (im_path : string) : list pyobj :=
  let pred := astype_uint8 (inference im_path) in
  flat_map (fun c => flat_map (fun poly => List.concat poly)
                              (polygons_of_class pred c))
           (Py.range_upto 19).

Definition shard_coordinates `{Collaborators} (shard : list string) : list pyobj :=
  flat_map image_coordinates shard.

(** The order of the annotation list: by image, then by class. *)
Definition key_order (x y : Z * Z * list (list pyobj)) : Prop :=
  fst (fst x) < fst (fst y)
  \/ (fst (fst x) = fst (fst y) /\ snd (fst x) <= snd (fst y)).

Definition ann_order (a b : AnnotationRecord) : Prop :=
  key_order (ann_key a) (ann_key b).

(** The fields of an annotation that [predict] never computes. *)
Definition blank_fields (a : AnnotationRecord) : Prop :=
  ann_iscrowd a = 0 /\ ann_area a = 0 /\ ann_bbox a = []
  /\ List.length (ann_segmentation a) = 1%nat.

(** The image record [predict] builds for the image at position [i]. *)
Definition image_record `{Collaborators} (i : Z) (im_path im_file : string)
  : ImageRecord :=
  let pred := astype_uint8 (inference im_path) in
  {| img_id := i + 1;
     img_width := snd (shape pred);
     img_height := fst (shape pred);
     img_file_name := im_file;
     img_license := EmptyString;
     img_flickr_url := EmptyString;
     img_coco_url := EmptyString;
     img_date_captured := EmptyString |}.

(** The document of a run that processed no image. *)
Definition empty_document : Document :=
  {| doc_categories := categories;
     doc_images := [];
     doc_annotations := [];
     doc_info := EmptyString;
     doc_licenses := [] |}.

(** A network whose label map has a single row. *)
Module Flat.

Definition world : Collaborators :=
  {| inference := fun _ => [ [0; 1; 2] ];
     get_polygon := Demo.tracer;
     recursion_limit := 1000 |}.

End Flat.

(** A tracer that returns a polygon with a coordinate of a type JSON does
    not know, for every mask with a foreground pixel. *)
Module Faulty.

Definition tracer (mask : array2) (img_size : Z * Z) : option (list polygon) :=
  if Demo.has_foreground mask
  then Some [ [ [PyInt 0; PyOther "Decimal"] ] ]
  else None.

Definition world : Collaborators :=
  {| inference := fun _ => Demo.label_map;
     get_polygon := tracer;
     recursion_limit := 1000 |}.

End Faulty.

(** * Properties *)

(** ** The partitioner *)

Section PartitionFacts.

Context {A : Type}.
Implicit Types (arr l : list A) (n k c : nat).

Lemma firstn_then_window l a b :
  firstn a l ++ firstn b (skipn a l) = firstn (a + b) l.
Proof.
  revert l; induction a as [|a IH]; intros l; simpl.
  - reflexivity.
  - destruct l as [|x l]; simpl.
    + now rewrite firstn_nil.
    + now rewrite IH.
Qed.

(** The first [c] windows of width [n] make up the first [c * n] items. *)
Lemma concat_windows l n c :
  List.concat (map (fun k => firstn n (skipn (k * n) l)) (seq 0 c))
  = firstn (c * n) l.
Proof.
  induction c as [|c IH].
  - reflexivity.
  - rewrite seq_S, map_app, concat_app, IH. simpl.
    rewrite app_nil_r, firstn_then_window.
    f_equal. lia.
Qed.

Lemma ceil_div_pos (N m : Z) : 1 <= N -> 1 <= m -> 1 <= Py.ceil_div N m.
Proof.
  intros HN Hm. unfold Py.ceil_div.
  pose proof (Z.div_mod (- N) m ltac:(lia)) as E.
  pose proof (Z.mod_pos_bound (- N) m ltac:(lia)) as B.
  nia.
Qed.

(** A slice that starts inside the list is a window. *)
Lemma slice_window l (i n : Z) :
  0 <= i <= Py.len l -> 0 <= n ->
  Py.slice l i (i + n) = firstn (Z.to_nat n) (skipn (Z.to_nat i) l).
Proof.
  intros Hi Hn. unfold Py.slice, Py.clamp, Py.len in *.
  destruct (Z.ltb_spec i 0) as [?|_]; [lia|].
  destruct (Z.ltb_spec (i + n) 0) as [?|_]; [lia|].
  rewrite (Z.min_l i) by lia.
  destruct (Z.le_gt_cases (i + n) (Z.of_nat (List.length l))) as [Hle|Hgt].
  - rewrite Z.min_l by lia. f_equal. lia.
  - rewrite Z.min_r by lia.
    assert (Hlen : List.length (skipn (Z.to_nat i) l)
                   = Z.to_nat (Z.of_nat (List.length l) - i)).
    { rewrite length_skipn. lia. }
    rewrite <- Hlen, firstn_all.
    symmetry. apply firstn_all2. lia.
Qed.

(** On a non-empty list and [m >= 1] the partitioner returns the windows
    of width [n = ceil(N / m)], [ceil(N / n)] of them. *)
Lemma partition_list_windows arr (m : Z) :
  1 <= m -> arr <> [] ->
  let n := Z.to_nat (Py.ceil_div (Py.len arr) m) in
  let cnt := Z.to_nat ((Py.len arr - 1) / Z.of_nat n + 1) in
  partition_list arr m
  = Ok (map (fun k => firstn n (skipn (k * n) arr)) (seq 0 cnt))
  /\ (1 <= n)%nat /\ (List.length arr <= cnt * n)%nat.
Proof.
  intros Hm Hne n cnt.
  assert (HN : 1 <= Py.len arr).
  { unfold Py.len. destruct arr; [congruence|simpl; lia]. }
  pose proof (ceil_div_pos _ _ HN Hm) as Hn.
  assert (En : Z.of_nat n = Py.ceil_div (Py.len arr) m) by (unfold n; lia).
  pose proof (Z.div_mod (Py.len arr - 1) (Z.of_nat n) ltac:(lia)) as E.
  pose proof (Z.mod_pos_bound (Py.len arr - 1) (Z.of_nat n) ltac:(lia)) as B.
  assert (Hq : 0 <= (Py.len arr - 1) / Z.of_nat n) by (apply Z.div_pos; lia).
  split; [|split].
  - unfold partition_list.
    destruct (Z.eqb_spec m 0) as [?|_]; [lia|].
    cbv zeta. rewrite <- En. unfold Py.range.
    destruct (Z.eqb_spec (Z.of_nat n) 0) as [?|_]; [lia|].
    simpl bind. f_equal. rewrite map_map.
    assert (Ec : Py.range_len 0 (Py.len arr) (Z.of_nat n) = cnt).
    { unfold Py.range_len.
      destruct (Z.ltb_spec 0 (Z.of_nat n)) as [_|?]; [|lia].
      destruct (Z.ltb_spec 0 (Py.len arr)) as [_|?]; [|lia].
      unfold cnt. f_equal. f_equal. f_equal. lia. }
    rewrite Ec. apply map_ext_in. intros k Hk. apply in_seq in Hk.
    rewrite slice_window.
    + f_equal; [lia|]. f_equal. lia.
    + assert (Z.of_nat k <= (Py.len arr - 1) / Z.of_nat n) by lia. nia.
    + lia.
  - lia.
  - unfold Py.len in *. nia.
Qed.

(** With [m >= 1] the only input the partitioner rejects is the empty
    list. *)
Lemma partition_list_returns arr (m : Z) :
  1 <= m -> arr <> [] -> exists chunks, partition_list arr m = Ok chunks.
Proof.
  intros Hm Hne. destruct (partition_list_windows arr m Hm Hne) as [E _].
  eexists. exact E.
Qed.

Lemma partition_list_empty (m : Z) :
  1 <= m -> partition_list (@nil A) m = Raise ValueError.
Proof.
  intros Hm. unfold partition_list.
  destruct (Z.eqb_spec m 0) as [?|_]; [lia|].
  cbv zeta. unfold Py.len, Py.ceil_div. simpl List.length.
  change (- Z.of_nat 0) with 0. rewrite Z.div_0_l by lia. reflexivity.
Qed.

End PartitionFacts.

Section ShardFacts.

Context {A : Type}.

(** A member of a list of lists is the segment of the concatenation that
    starts where the members before it end. *)
Lemma segment_of_concat (chunks : list (list A)) (k : nat) (c : list A) :
  nth_error chunks k = Some c ->
  c = firstn (List.length c)
        (skipn (List.length (List.concat (firstn k chunks))) (List.concat chunks)).
Proof.
  intros Hk.
  destruct (nth_error_split chunks k Hk) as (pre & post & E & Hlen).
  subst chunks.
  rewrite firstn_app, <- Hlen, firstn_all, Nat.sub_diag, firstn_O, app_nil_r.
  rewrite concat_app. simpl.
  rewrite skipn_app, skipn_all, Nat.sub_diag. simpl.
  rewrite firstn_app, firstn_all, Nat.sub_diag, firstn_O, app_nil_r.
  reflexivity.
Qed.

Lemma partition_list_nonempty (arr : list A) (m : Z) (chunks : list (list A)) :
  1 <= m -> partition_list arr m = Ok chunks -> arr <> [] /\ 1 <= Py.len arr.
Proof.
  intros Hm E. destruct arr as [|x arr'].
  - rewrite partition_list_empty in E by exact Hm. discriminate.
  - split; [discriminate|]. unfold Py.len. simpl List.length. lia.
Qed.

(** The number of shards never exceeds the worker count. *)
Lemma partition_list_count (arr : list A) (m : Z) (chunks : list (list A)) :
  1 <= m -> partition_list arr m = Ok chunks ->
  1 <= Py.len chunks <= m.
Proof.
  intros Hm E.
  destruct (partition_list_nonempty arr m chunks Hm E) as [Hne HN].
  destruct (partition_list_windows arr m Hm Hne) as (E' & Hn & Hc).
  cbv zeta in E', Hn, Hc.
  assert (Ec : chunks = map (fun k => firstn (Z.to_nat (Py.ceil_div (Py.len arr) m))
                                  (skipn (k * Z.to_nat (Py.ceil_div (Py.len arr) m)) arr))
                 (seq 0 (Z.to_nat ((Py.len arr - 1)
                    / Z.of_nat (Z.to_nat (Py.ceil_div (Py.len arr) m)) + 1))))
    by congruence.
  pose proof (ceil_div_pos _ _ HN Hm) as Hp.
  assert (El : Py.len chunks
               = Z.of_nat (Z.to_nat ((Py.len arr - 1) / Py.ceil_div (Py.len arr) m + 1))).
  { rewrite Ec. unfold Py.len at 1. rewrite length_map, length_seq.
    rewrite (Z2Nat.id (Py.ceil_div (Py.len arr) m)) by lia. reflexivity. }
  rewrite El. clear El Ec E' Hc.
  assert (Hnm : Py.len arr <= Py.ceil_div (Py.len arr) m * m).
  { unfold Py.ceil_div.
    pose proof (Z.div_mod (- Py.len arr) m ltac:(lia)).
    pose proof (Z.mod_pos_bound (- Py.len arr) m ltac:(lia)). nia. }
  assert (Hq : 0 <= (Py.len arr - 1) / Py.ceil_div (Py.len arr) m)
    by (apply Z.div_pos; lia).
  assert (Hlt : (Py.len arr - 1) / Py.ceil_div (Py.len arr) m < m).
  { apply Z.div_lt_upper_bound; lia. }
  lia.
Qed.

End ShardFacts.

(** C3: for a worker count [m >= 1], the sublists [partition_list] returns
    concatenate in order to the original list, each sublist is the
    contiguous segment of the original that starts where the sublists
    before it end (so no two overlap), and none holds more than
    [ceil(N / m)] items. *)
Theorem partition_list_shards (A : Type) (arr : list A) (m : Z)
    (chunks : list (list A)) :
  1 <= m ->
  partition_list arr m = Ok chunks ->
  List.concat chunks = arr
  /\ (forall k c, nth_error chunks k = Some c ->
        c = firstn (List.length c)
              (skipn (List.length (List.concat (firstn k chunks))) arr))
  /\ Forall (fun c => Py.len c <= Py.ceil_div (Py.len arr) m) chunks.
Proof.
  intros Hm E.
  destruct (partition_list_nonempty arr m chunks Hm E) as [Hne HN].
  destruct (partition_list_windows arr m Hm Hne) as (E' & Hn & Hc).
  set (n := Z.to_nat (Py.ceil_div (Py.len arr) m)) in *.
  set (cnt := Z.to_nat ((Py.len arr - 1) / Z.of_nat n + 1)) in *.
  cbv zeta in E'.
  assert (Ec : chunks = map (fun k => firstn n (skipn (k * n) arr)) (seq 0 cnt))
    by congruence.
  assert (Hcat : List.concat chunks = arr).
  { rewrite Ec, concat_windows. apply firstn_all2. exact Hc. }
  split; [exact Hcat|split].
  - intros k c Hk. rewrite <- Hcat. apply segment_of_concat. exact Hk.
  - apply Forall_forall. intros c Hin. rewrite Ec in Hin.
    apply in_map_iff in Hin. destruct Hin as (k & <- & _).
    unfold Py.len at 1. rewrite length_firstn.
    pose proof (ceil_div_pos _ _ HN Hm).
    unfold n. lia.
Qed.

Lemma partition_list_shards_witness :
  1 <= 3 /\
  partition_list [1; 2; 3; 4; 5; 6; 7] 3 = Ok [[1; 2; 3]; [4; 5; 6]; [7]] /\
  List.concat [[1; 2; 3]; [4; 5; 6]; [7]] = [1; 2; 3; 4; 5; 6; 7].
Proof.
  split; [lia|]. split; [reflexivity|].
  apply (partition_list_shards Z [1; 2; 3; 4; 5; 6; 7] 3
           [[1; 2; 3]; [4; 5; 6]; [7]]); [lia | reflexivity].
Defined.

(** C4: four items split for three workers come back as two sublists, not
    three. *)
Theorem partition_list_four_for_three :
  partition_list ["a"; "b"; "c"; "d"]%string 3
  = Ok [["a"; "b"]; ["c"; "d"]]%string.
Proof. reflexivity. Qed.

(** C5: the empty list makes the chunk size zero, and [range] rejects a
    zero step with [ValueError]. *)
Theorem partition_list_empty_raises :
  partition_list (@nil string) 2 = Raise ValueError.
Proof. reflexivity. Qed.

(** ** The encoder *)

Section EncoderFacts.

Import NpEncoder.

Lemma ndarray_nested_ind (P : ndarray -> Prop) :
  (forall e, P (Arr0 e)) ->
  (forall items, Forall P items -> P (ArrAxis items)) ->
  forall a, P a.
Proof.
  intros H0 H1. fix IH 1. intros [e|items].
  - apply H0.
  - apply H1. induction items as [|x items IHitems]; constructor.
    + apply IH.
    + exact IHitems.
Qed.

(** [tolist] leaves no numpy type behind. *)
Lemma tolist_plain (a : ndarray) : plain (tolist a) = true.
Proof.
  induction a as [e|items IH] using ndarray_nested_ind.
  - destruct e; reflexivity.
  - simpl. rewrite forallb_forall. intros o Hin.
    apply in_map_iff in Hin. destruct Hin as (x & <- & Hx).
    rewrite Forall_forall in IH. apply IH, Hx.
Qed.

(** [datetime] is not a name of the module. *)
Lemma datetime_unbound : load_global "datetime" = Raise NameError.
Proof. reflexivity. Qed.

Lemma traverse_cases {X Y : Type} (f : X -> result Y) (p : X -> bool)
    (g : X -> Y) (e : exn) (l : list X) :
  (forall x, In x l -> f x = if p x then Ok (g x) else Raise e) ->
  traverse f l = if forallb p l then Ok (map g l) else Raise e.
Proof.
  induction l as [|x l IH]; intros Hf; simpl.
  - reflexivity.
  - rewrite (Hf x (or_introl eq_refl)).
    destruct (p x); simpl; [|reflexivity].
    rewrite IH by (intros y Hy; apply Hf; right; exact Hy).
    destruct (forallb p l); reflexivity.
Qed.

Lemma traverse_all_ok {X Y : Type} (f : X -> result Y) (g : X -> Y) (l : list X) :
  (forall x, In x l -> f x = Ok (g x)) ->
  traverse f l = Ok (map g l).
Proof.
  intros Hf.
  rewrite (traverse_cases f (fun _ => true) g ValueError l).
  - assert (E : forallb (fun _ : X => true) l = true)
      by (apply forallb_forall; reflexivity).
    now rewrite E.
  - exact Hf.
Qed.

Lemma list_max_bound {X : Type} (f : X -> nat) (l : list X) (n : nat) (x : X) :
  (list_max (map f l) <= n)%nat -> In x l -> (f x <= n)%nat.
Proof.
  intros Hmax Hin. apply list_max_le in Hmax.
  rewrite Forall_forall in Hmax. apply Hmax, in_map, Hin.
Qed.

Lemma traverse_map {X Y W : Type} (h : X -> Y) (f : Y -> result W) (l : list X) :
  traverse f (map h l) = traverse (fun x => f (h x)) l.
Proof.
  induction l as [|x l IH]; simpl; [reflexivity|now rewrite IH].
Qed.

Lemma depth_pos (o : pyobj) : (1 <= depth o)%nat.
Proof. destruct o; simpl; lia. Qed.

(** The encoder writes the result of [tolist] as nested arrays. *)
Lemma iterencode_tolist (limit : nat) :
  forall a, (array_depth a <= limit)%nat ->
            iterencode limit (tolist a) = Ok (array_json_spec a).
Proof.
  induction limit as [|limit IH]; intros a Hd.
  - destruct a; simpl in Hd; lia.
  - destruct a as [e|items].
    + destruct e; reflexivity.
    + simpl in Hd. simpl.
      rewrite traverse_map, (traverse_all_ok _ array_json_spec items).
      * reflexivity.
      * intros x Hx. apply IH.
        apply (list_max_bound array_depth items limit x); [lia|exact Hx].
Qed.

(** With enough recursion depth the encoder either writes the specified
    text or stops with [NameError], according to whether every
    non-standard value is one of the three numpy kinds. *)
Lemma iterencode_cases (limit : nat) :
  forall o, (depth o <= limit)%nat ->
            iterencode limit o
            = if only_numpy_wrappers o then Ok (normalized_spec o)
              else Raise NameError.
Proof.
  induction limit as [|limit IH]; intros o Hd.
  - pose proof (depth_pos o). lia.
  - destruct o as [ |b|z|f|s|items|entries|z|[|] f|a|iso|ty]; try reflexivity.
    + simpl in Hd. simpl.
      rewrite (traverse_cases _ only_numpy_wrappers normalized_spec NameError).
      * destruct (forallb only_numpy_wrappers items); reflexivity.
      * intros x Hx. apply IH.
        apply (list_max_bound depth items limit x); [lia|exact Hx].
    + simpl in Hd. simpl.
      rewrite (traverse_cases _
                 (fun kv => let '(_, v) := kv in only_numpy_wrappers v)
                 (fun kv => let '(k, v) := kv in (k, normalized_spec v))
                 NameError).
      * destruct (forallb _ entries); reflexivity.
      * intros [k v] Hkv. simpl.
        rewrite IH.
        -- destruct (only_numpy_wrappers v); reflexivity.
        -- apply (list_max_bound (fun kv => let '(_, v) := kv in depth v)
                    entries limit (k, v)); [lia|exact Hkv].
    + simpl in Hd. destruct limit as [|limit]; [lia|reflexivity].
    + simpl in Hd. destruct limit as [|limit]; [lia|reflexivity].
    + simpl in Hd. simpl. apply iterencode_tolist. lia.
Qed.

End EncoderFacts.

(** C7: [NpEncoder.default] turns a numpy integer into a plain int, a
    numpy floating value into a plain float and a numpy array into the
    nested plain lists of [tolist]; and a document whose non-standard
    values are only of these kinds is serialized, wrapper by wrapper, to
    the text of its plain counterpart. *)
Theorem NpEncoder_normalizes :
  (forall z, NpEncoder.default (NpInteger z) = Ok (PyInt z))
  /\ (forall double f, NpEncoder.default (NpFloating double f) = Ok (PyFloat f))
  /\ (forall a, NpEncoder.default (NpArray a) = Ok (tolist a)
                /\ plain (tolist a) = true)
  /\ (forall items, tolist (ArrAxis items) = PyList (map tolist items))
  /\ (forall limit doc,
        only_numpy_wrappers doc = true ->
        (depth doc <= limit)%nat ->
        NpEncoder.dumps limit doc = Ok (normalized_spec doc)).
Proof.
  repeat split; try reflexivity.
  - apply tolist_plain.
  - intros limit doc Hw Hd. unfold NpEncoder.dumps.
    rewrite iterencode_cases by exact Hd. now rewrite Hw.
Qed.

(** C10: on an object that is not a numpy integer, floating value or
    array, [NpEncoder.default] stops with [NameError] at the unbound name
    [datetime], never reaching the base class's [TypeError]; so does the
    serialization of any document that holds such an unsupported value. *)
Theorem NpEncoder_default_NameError :
  (forall obj, is_numpy_wrapper obj = false ->
               NpEncoder.default obj = Raise NameError)
  /\ (forall limit doc,
        only_numpy_wrappers doc = false ->
        (depth doc <= limit)%nat ->
        NpEncoder.dumps limit doc = Raise NameError).
Proof.
  split.
  - intros obj Hobj. destruct obj; try discriminate; reflexivity.
  - intros limit doc Hw Hd. unfold NpEncoder.dumps.
    rewrite iterencode_cases by exact Hd. now rewrite Hw.
Qed.

(** ** Dictionaries *)

Section DictFacts.

Context {V : Type}.
Implicit Types (d : Dict.t V) (k : Z) (v : V).

Lemma dict_mem_absent d k :
  ~ In k (map fst d) -> Dict.mem k d = false.
Proof.
  induction d as [|[k' v'] d IH]; simpl; intros Hk.
  - reflexivity.
  - destruct (Z.eqb_spec k' k) as [->|_]; [tauto|].
    apply IH. tauto.
Qed.

Lemma dict_set_absent d k v :
  ~ In k (map fst d) -> Dict.set k v d = d ++ [(k, v)].
Proof.
  induction d as [|[k' v'] d IH]; simpl; intros Hk.
  - reflexivity.
  - destruct (Z.eqb_spec k' k) as [->|_]; [tauto|].
    rewrite IH by tauto. reflexivity.
Qed.

Lemma dict_get_last d k v default :
  ~ In k (map fst d) -> Dict.get k (d ++ [(k, v)]) default = v.
Proof.
  induction d as [|[k' v'] d IH]; simpl; intros Hk.
  - now rewrite Z.eqb_refl.
  - destruct (Z.eqb_spec k' k) as [->|_]; [tauto|].
    apply IH. tauto.
Qed.

Lemma dict_set_last d k v v' :
  ~ In k (map fst d) -> Dict.set k v' (d ++ [(k, v)]) = d ++ [(k, v')].
Proof.
  induction d as [|[k' w] d IH]; simpl; intros Hk.
  - now rewrite Z.eqb_refl.
  - destruct (Z.eqb_spec k' k) as [->|_]; [tauto|].
    rewrite IH by tauto. reflexivity.
Qed.

Lemma dict_lookup_absent d k :
  ~ In k (map fst d) -> Dict.lookup k d = None.
Proof.
  induction d as [|[k' v'] d IH]; simpl; intros Hk.
  - reflexivity.
  - destruct (Z.eqb_spec k' k) as [->|_]; [tauto|].
    apply IH. tauto.
Qed.

End DictFacts.

(** ** Per-class polygon collection *)

Section PolygonFacts.

Context `{Collaborators}.

Lemma entry_keys pred img_size (l : list Z) (k : Z) :
  In k (map fst (flat_map (entry_of pred img_size) l)) -> In k l.
Proof.
  induction l as [|c l IH]; simpl; [tauto|].
  rewrite map_app, in_app_iff. intros [Hk|Hk].
  - left. unfold entry_of in Hk.
    destruct (get_polygon _ _); simpl in Hk; tauto.
  - right. apply IH, Hk.
Qed.

Lemma entry_keys_traced pred img_size (l : list Z) (k : Z) :
  In k (map fst (flat_map (entry_of pred img_size) l)) ->
  get_polygon (class_mask pred k) img_size <> None.
Proof.
  induction l as [|c l IH]; simpl; [tauto|].
  rewrite map_app, in_app_iff. intros [Hk|Hk].
  - unfold entry_of in Hk.
    destruct (get_polygon (class_mask pred c) img_size) eqn:E; simpl in Hk.
    + destruct Hk as [<-|[]]. congruence.
    + tauto.
  - apply IH, Hk.
Qed.

(** Over distinct class ids that are not yet keys, the loop appends one
    entry per non-[None] result and logs one tracer call per class id. *)
Lemma class_loop pred img_size (l : list Z) :
  forall d calls,
    NoDup l ->
    (forall k, In k l -> ~ In k (map fst d)) ->
    fold_left (class_step pred img_size) l (d, calls)
    = (d ++ flat_map (entry_of pred img_size) l,
       calls ++ map (fun c => (class_mask pred c, img_size)) l).
Proof.
  induction l as [|c l IH]; intros d calls Hnd Hfresh; simpl.
  - now rewrite !app_nil_r.
  - inversion Hnd as [|? ? Hc Hnd']; subst.
    assert (Hcd : ~ In c (map fst d)) by (apply Hfresh; left; reflexivity).
    unfold entry_of at 1.
    destruct (get_polygon (class_mask pred c) img_size) as [ps|] eqn:E.
    + rewrite dict_mem_absent by exact Hcd.
      rewrite (dict_set_absent d c []) by exact Hcd.
      rewrite dict_get_last by exact Hcd.
      rewrite dict_set_last by exact Hcd. simpl app at 1.
      rewrite IH.
      * rewrite <- !app_assoc. reflexivity.
      * exact Hnd'.
      * intros k Hk. rewrite map_app, in_app_iff. simpl.
        intros [Hin|[<-|[]]]; [|exact (Hc Hk)].
        apply (Hfresh k); [right; exact Hk|exact Hin].
    + rewrite IH.
      * rewrite <- !app_assoc. reflexivity.
      * exact Hnd'.
      * intros k Hk. apply Hfresh. right. exact Hk.
Qed.

Lemma range_upto_NoDup (n : nat) : NoDup (Py.range_upto n).
Proof.
  unfold Py.range_upto. apply Injective_map_NoDup.
  - intros a b E. lia.
  - apply seq_NoDup.
Qed.

Lemma get_polygons_traced_eq pred img_size :
  get_polygons_traced pred img_size
  = (class_entries pred img_size,
     map (fun c => (class_mask pred c, img_size)) (Py.range_upto 19)).
Proof.
  unfold get_polygons_traced.
  rewrite class_loop.
  - reflexivity.
  - apply range_upto_NoDup.
  - intros k _ [].
Qed.

Lemma class_mask_pixel pred class_id (r c : nat) :
  pixel (class_mask pred class_id) r c
  = option_map (fun v => if v =? class_id then 255 else 0) (pixel pred r c).
Proof.
  unfold pixel, class_mask, astype_uint8, where_eq.
  rewrite map_map, nth_error_map.
  destruct (nth_error pred r) as [row|]; simpl; [|reflexivity].
  rewrite map_map, nth_error_map.
  destruct (nth_error row c) as [v|]; simpl; [|reflexivity].
  destruct (v =? class_id); reflexivity.
Qed.

End PolygonFacts.

(** C6: for every label map and every tracer, the loop calls the tracer
    exactly once for each class id 0..18, in ascending order and whatever
    the label map contains: the calls made are the 19 class masks, and
    the mapping [get_polygons_for_all_classes] returns is made of the
    tracer's answers on exactly these masks.  The mask of a class has 255
    at the pixels whose label is the class id and 0 at all others, and has
    no other pixels. *)
Theorem get_polygons_masks `{Collaborators} (pred : array2) (img_size : Z * Z) :
  get_polygons_traced pred img_size
  = (get_polygons_for_all_classes pred img_size,
     map (fun class_id => (class_mask pred class_id, img_size))
         [0; 1; 2; 3; 4; 5; 6; 7; 8; 9; 10; 11; 12; 13; 14; 15; 16; 17; 18])
  /\ get_polygons_for_all_classes pred img_size
     = flat_map (fun class_id =>
                   match get_polygon (class_mask pred class_id) img_size with
                   | Some class_polygons => [(class_id, class_polygons)]
                   | None => []
                   end)
                [0; 1; 2; 3; 4; 5; 6; 7; 8; 9; 10; 11; 12; 13; 14; 15; 16; 17; 18]
  /\ forall class_id r c,
       pixel (class_mask pred class_id) r c
       = option_map (fun v => if v =? class_id then 255 else 0) (pixel pred r c).
Proof.
  split; [|split].
  - unfold get_polygons_for_all_classes.
    rewrite get_polygons_traced_eq. reflexivity.
  - unfold get_polygons_for_all_classes.
    rewrite get_polygons_traced_eq. reflexivity.
  - intros class_id r c. apply class_mask_pixel.
Qed.

(** ** The record-assembling loop *)

Section LoopFacts.

Context `{Collaborators}.

Lemma add_annotation_numbered image_id class_id annotations poly :
  numbered annotations ->
  numbered (add_annotation image_id class_id annotations poly).
Proof.
  unfold numbered, add_annotation. intros Hn.
  rewrite map_app, length_app, Hn. simpl List.length.
  rewrite Nat.add_1_r, seq_S, map_app. simpl.
  f_equal. f_equal. unfold Py.len. lia.
Qed.

Lemma add_annotation_key image_id class_id annotations poly :
  map ann_key (add_annotation image_id class_id annotations poly)
  = map ann_key annotations ++ [(image_id, class_id, [List.concat poly])].
Proof. unfold add_annotation. now rewrite map_app. Qed.

Lemma add_class_numbered image_id item annotations :
  numbered annotations -> numbered (add_class image_id annotations item).
Proof.
  unfold add_class. generalize (snd item) as polys.
  intros polys. revert annotations.
  induction polys as [|poly polys IH]; intros annotations Hn; simpl.
  - exact Hn.
  - apply IH, add_annotation_numbered, Hn.
Qed.

Lemma add_class_key image_id item annotations :
  map ann_key (add_class image_id annotations item)
  = map ann_key annotations
    ++ map (fun poly => (image_id, fst item, [List.concat poly])) (snd item).
Proof.
  unfold add_class. generalize (snd item) as polys.
  intros polys. revert annotations.
  induction polys as [|poly polys IH]; intros annotations; simpl.
  - now rewrite app_nil_r.
  - rewrite IH, add_annotation_key, <- app_assoc. reflexivity.
Qed.

Lemma add_image_annotations_numbered image_id d annotations :
  numbered annotations -> numbered (add_image_annotations image_id d annotations).
Proof.
  unfold add_image_annotations. revert annotations.
  induction d as [|item d IH]; intros annotations Hn; simpl.
  - exact Hn.
  - apply IH, add_class_numbered, Hn.
Qed.

Lemma add_image_annotations_key image_id d annotations :
  map ann_key (add_image_annotations image_id d annotations)
  = map ann_key annotations
    ++ flat_map (fun item => map (fun poly => (image_id, fst item, [List.concat poly]))
                                 (snd item)) d.
Proof.
  unfold add_image_annotations. revert annotations.
  induction d as [|item d IH]; intros annotations; simpl.
  - now rewrite app_nil_r.
  - rewrite IH, add_class_key, <- app_assoc. reflexivity.
Qed.

(** The entries of the collected dictionary yield the specified
    annotations of the image. *)
Lemma class_entries_emitted image_id pred :
  flat_map (fun item => map (fun poly => (image_id, fst item, [List.concat poly]))
                            (snd item))
           (class_entries pred (shape pred))
  = emitted_for_image image_id pred.
Proof.
  unfold class_entries, emitted_for_image.
  generalize (Py.range_upto 19) as l.
  induction l as [|c l IH]; cbn [flat_map].
  - reflexivity.
  - rewrite flat_map_app. f_equal; [|exact IH].
    unfold entry_of, polygons_of_class.
    destruct (get_polygon (class_mask pred c) (shape pred)); simpl.
    + now rewrite app_nil_r.
    + reflexivity.
Qed.

Lemma get_polygons_for_all_classes_eq pred img_size :
  get_polygons_for_all_classes pred img_size = class_entries pred img_size.
Proof.
  unfold get_polygons_for_all_classes. now rewrite get_polygons_traced_eq.
Qed.

(** Indexing the squeezed shape. *)
Lemma squeezed_shape_items (a : array2) :
  Py.getitem (squeezed_shape a) 1
  = (if keeps_two_axes a then Ok (snd (shape a)) else Raise IndexError)
  /\ (keeps_two_axes a = true ->
      Py.getitem (squeezed_shape a) 0 = Ok (fst (shape a))).
Proof.
  unfold squeezed_shape, keeps_two_axes. cbn [filter].
  destruct (fst (shape a) =? 1), (snd (shape a) =? 1); cbn;
    (split; [reflexivity|intros E; first [reflexivity|discriminate E]]).
Qed.

(** One pass of the loop body. *)
Lemma process_image_ok image_dir i im_path images annotations images' annotations' :
  process_image image_dir i im_path (images, annotations) = Ok (images', annotations') ->
  exists image,
    images' = images ++ [image]
    /\ img_id image = i + 1
    /\ saved_name image_dir im_path = Ok (img_file_name image)
    /\ map ann_key annotations'
       = map ann_key annotations
         ++ emitted_for_image (i + 1) (astype_uint8 (inference im_path))
    /\ (numbered annotations -> numbered annotations').
Proof.
  unfold process_image.
  destruct (saved_name image_dir im_path) as [im_file|e] eqn:Es; cbn [bind]; [|discriminate].
  destruct (squeezed_shape_items (astype_uint8 (inference im_path))) as [E1 E0].
  rewrite E1.
  destruct (keeps_two_axes (astype_uint8 (inference im_path))); cbn [bind]; [|discriminate].
  rewrite (E0 eq_refl). cbn [bind].
  intros E. injection E as <- <-.
  eexists. split; [reflexivity|]. simpl.
  split; [reflexivity|]. split; [reflexivity|]. split.
  - rewrite add_image_annotations_key, get_polygons_for_all_classes_eq,
      class_entries_emitted. reflexivity.
  - apply add_image_annotations_numbered.
Qed.

Lemma predict_loop_cons image_dir i im_path rest st :
  predict_loop image_dir i (im_path :: rest) st
  = bind (process_image image_dir i im_path st)
         (fun st' => predict_loop image_dir (i + 1) rest st').
Proof. reflexivity. Qed.

(** The whole loop, from position [i] and any state. *)
Lemma predict_loop_ok image_dir (shard : list string) :
  forall i images annotations images' annotations',
    predict_loop image_dir i shard (images, annotations) = Ok (images', annotations') ->
    exists new,
      images' = images ++ new
      /\ map img_id new = map (fun k => i + Z.of_nat k) (seq 1 (List.length shard))
      /\ Forall2 (fun im_path image => saved_name image_dir im_path
                                       = Ok (img_file_name image)) shard new
      /\ map ann_key annotations'
         = map ann_key annotations ++ emitted_from i shard
      /\ (numbered annotations -> numbered annotations').
Proof.
  induction shard as [|im_path rest IH]; intros i images annotations images' annotations'.
  - simpl. intros E. injection E as <- <-. exists [].
    rewrite !app_nil_r. repeat split; auto.
  - rewrite predict_loop_cons.
    destruct (process_image image_dir i im_path (images, annotations))
      as [[images1 annotations1]|e] eqn:E1; cbn [bind]; [|discriminate].
    intros E2.
    apply process_image_ok in E1.
    destruct E1 as (image & -> & Hid & Hname & Hkey & Hnum).
    apply IH in E2.
    destruct E2 as (new & -> & Hids & Hnames & Hkeys & Hnums).
    exists (image :: new). repeat split.
    + now rewrite <- app_assoc.
    + simpl. rewrite Hid, Hids. f_equal.
      rewrite <- (seq_shift (List.length rest) 1), map_map. apply map_ext. intros k. lia.
    + constructor; assumption.
    + rewrite Hkeys, Hkey, <- app_assoc. reflexivity.
    + intros Hn. apply Hnums, Hnum, Hn.
Qed.

Lemma emitted_for_image_length image_id pred :
  List.length (emitted_for_image image_id pred)
  = list_sum (map (fun c => List.length (polygons_of_class pred c)) (Py.range_upto 19)).
Proof.
  unfold emitted_for_image. rewrite length_flat_map.
  f_equal. apply map_ext. intros c. apply length_map.
Qed.

Lemma emitted_from_length i shard :
  List.length (emitted_from i shard) = total_polygons shard.
Proof.
  unfold total_polygons. revert i.
  induction shard as [|im_path rest IH]; intros i; simpl.
  - reflexivity.
  - rewrite length_app, IH, emitted_for_image_length. reflexivity.
Qed.

(** Where an emitted annotation comes from. *)
Lemma emitted_from_origin i shard image_id class_id seg :
  In (image_id, class_id, seg) (emitted_from i shard) ->
  exists j im_path poly,
    nth_error shard j = Some im_path
    /\ image_id = i + Z.of_nat j + 1
    /\ In poly (polygons_of_class (astype_uint8 (inference im_path)) class_id).
Proof.
  revert i. induction shard as [|im_path rest IH]; intros i; simpl; [tauto|].
  rewrite in_app_iff. intros [Hin|Hin].
  - unfold emitted_for_image in Hin. apply in_flat_map in Hin.
    destruct Hin as (c & _ & Hin). apply in_map_iff in Hin.
    destruct Hin as (poly & E & Hpoly). injection E as <- <- <-.
    exists O, im_path, poly. simpl. repeat split; [lia|exact Hpoly].
  - apply IH in Hin. destruct Hin as (j & p & poly & Hj & -> & Hpoly).
    exists (S j), p, poly. simpl. repeat split; [exact Hj|lia|exact Hpoly].
Qed.

(** What a successful [predict] did. *)
Lemma predict_ok nranks local_rank image_list image_dir run :
  predict nranks local_rank image_list image_dir = Ok run ->
  exists shard,
    select_shard nranks local_rank image_list = Ok shard
    /\ predict_loop image_dir 0 shard ([], [])
       = Ok (doc_images (json_data run), doc_annotations (json_data run))
    /\ doc_categories (json_data run) = categories.
Proof.
  unfold predict, select_shard.
  destruct (if 1 <? nranks then partition_list image_list nranks else Ok [image_list])
    as [img_lists|e]; simpl; [|discriminate].
  destruct (Py.getitem img_lists 0) as [first|e]; simpl; [|discriminate].
  destruct (Py.getitem img_lists local_rank) as [shard|e]; simpl; [|discriminate].
  destruct (predict_loop image_dir 0 shard ([], [])) as [[images annotations]|e] eqn:El;
    simpl; [|discriminate].
  destruct (NpEncoder.dumps recursion_limit _) as [text|e]; simpl; [|discriminate].
  intros E. injection E as <-. simpl.
  exists shard. split; [reflexivity|]. split; [exact El|reflexivity].
Qed.

End LoopFacts.

(** C1: when [predict] completes for a shard, the ids of the annotation
    records it appended are 1, 2, ..., K in append order, K being the
    number of polygons the tracer returned over all images and class ids
    of the shard; the records follow the images in input order, so the
    numbering carries on from one image to the next. *)
Theorem annotation_ids_sequential `{Collaborators}
    (nranks : Z) (local_rank : nat) (image_list : list string)
    (image_dir : option string) (run : Run) :
  predict nranks local_rank image_list image_dir = Ok run ->
  exists shard,
    select_shard nranks local_rank image_list = Ok shard
    /\ map ann_id (doc_annotations (json_data run))
       = map Z.of_nat (seq 1 (total_polygons shard))
    /\ map ann_key (doc_annotations (json_data run)) = emitted_from 0 shard.
Proof.
  intros E. apply predict_ok in E. destruct E as (shard & Hs & Hl & _).
  apply predict_loop_ok in Hl. destruct Hl as (new & _ & _ & _ & Hkey & Hnum).
  simpl in Hkey. exists shard. split; [exact Hs|]. split; [|exact Hkey].
  assert (Hn : numbered (doc_annotations (json_data run))) by (apply Hnum; reflexivity).
  unfold numbered in Hn. rewrite Hn. do 2 f_equal.
  rewrite <- (length_map ann_key), Hkey. apply emitted_from_length.
Qed.

Lemma annotation_ids_sequential_witness :
  exists run,
    @predict Demo.world 1 0 Demo.images None = Ok run
    /\ map ann_id (doc_annotations (json_data run)) = [1; 2; 3; 4; 5; 6].
Proof.
  destruct (@predict Demo.world 1 0 Demo.images None) as [run|e] eqn:E.
  - exists run. split; [reflexivity|].
    destruct (@annotation_ids_sequential Demo.world 1 0 Demo.images None run E)
      as (shard & Hs & Hids & _).
    vm_compute in Hs. injection Hs as <-. rewrite Hids. reflexivity.
  - vm_compute in E. discriminate.
Defined.

(** C2: when [predict] completes for a shard of N images, it appended one
    image record per image, in input order, with ids 1, 2, ..., N. *)
Theorem image_ids_sequential `{Collaborators}
    (nranks : Z) (local_rank : nat) (image_list : list string)
    (image_dir : option string) (run : Run) :
  predict nranks local_rank image_list image_dir = Ok run ->
  exists shard,
    select_shard nranks local_rank image_list = Ok shard
    /\ map img_id (doc_images (json_data run))
       = map Z.of_nat (seq 1 (List.length shard))
    /\ Forall2 (fun im_path image =>
                  saved_name image_dir im_path = Ok (img_file_name image))
               shard (doc_images (json_data run)).
Proof.
  intros E. apply predict_ok in E. destruct E as (shard & Hs & Hl & _).
  apply predict_loop_ok in Hl. destruct Hl as (new & Hnew & Hids & Hnames & _).
  simpl in Hnew. exists shard. rewrite Hnew.
  split; [exact Hs|]. split; [|exact Hnames].
  rewrite Hids. apply map_ext. intros k. lia.
Qed.

Lemma image_ids_sequential_witness :
  exists run,
    @predict Demo.world 1 0 Demo.images None = Ok run
    /\ map img_id (doc_images (json_data run)) = [1; 2].
Proof.
  destruct (@predict Demo.world 1 0 Demo.images None) as [run|e] eqn:E.
  - exists run. split; [reflexivity|].
    destruct (@image_ids_sequential Demo.world 1 0 Demo.images None run E)
      as (shard & Hs & Hids & _).
    vm_compute in Hs. injection Hs as <-. rewrite Hids. reflexivity.
  - vm_compute in E. discriminate.
Defined.

(** C9: a class whose mask makes the tracer return [None] gets no entry in
    the mapping [get_polygons_for_all_classes] returns, and no error is
    raised; so the image contributes no annotation record of that
    class. *)
Theorem tracer_none_contributes_nothing `{Collaborators} :
  (forall pred img_size class_id,
      get_polygon (class_mask pred class_id) img_size = None ->
      Dict.lookup class_id (get_polygons_for_all_classes pred img_size) = None)
  /\ (forall nranks local_rank image_list image_dir run shard i im_path class_id,
        predict nranks local_rank image_list image_dir = Ok run ->
        select_shard nranks local_rank image_list = Ok shard ->
        nth_error shard i = Some im_path ->
        get_polygon (class_mask (astype_uint8 (inference im_path)) class_id)
                    (shape (astype_uint8 (inference im_path))) = None ->
        forall a, In a (doc_annotations (json_data run)) ->
                  ann_image_id a = Z.of_nat i + 1 ->
                  ann_category_id a <> class_id).
Proof.
  split.
  - intros pred img_size class_id Hnone.
    rewrite get_polygons_for_all_classes_eq. apply dict_lookup_absent.
    intros Hin. apply entry_keys_traced in Hin. contradiction.
  - intros nranks local_rank image_list image_dir run shard i im_path class_id
           E Hs Hi Hnone a Ha Himg Hcat.
    apply predict_ok in E. destruct E as (shard' & Hs' & Hl & _).
    assert (shard' = shard) by congruence. subst shard'.
    apply predict_loop_ok in Hl. destruct Hl as (new & _ & _ & _ & Hkey & _).
    simpl in Hkey.
    assert (Hin : In (ann_key a) (emitted_from 0 shard)).
    { rewrite <- Hkey. apply in_map, Ha. }
    unfold ann_key in Hin. apply emitted_from_origin in Hin.
    destruct Hin as (j & p & poly & Hj & Hid & Hpoly).
    assert (j = i) by lia. subst j.
    assert (p = im_path) by congruence. subst p.
    rewrite Hcat in Hpoly. unfold polygons_of_class in Hpoly.
    rewrite Hnone in Hpoly. exact Hpoly.
Qed.

Lemma tracer_none_contributes_nothing_witness :
  Dict.lookup 5 (@get_polygons_for_all_classes Demo.world Demo.label_map (4, 4)) = None
  /\ exists run,
       @predict Demo.world 1 0 Demo.images None = Ok run
       /\ forall a, In a (doc_annotations (json_data run)) ->
                    ann_image_id a = 1 -> ann_category_id a <> 5.
Proof.
  split.
  - apply (proj1 (@tracer_none_contributes_nothing Demo.world)). reflexivity.
  - destruct (@predict Demo.world 1 0 Demo.images None) as [run|e] eqn:E.
    + exists run. split; [reflexivity|].
      apply (proj2 (@tracer_none_contributes_nothing Demo.world)
                   1 O Demo.images None run Demo.images O "data/a.png"%string 5 E);
        reflexivity.
    + vm_compute in E. discriminate.
Defined.

Lemma NpEncoder_normalizes_witness :
  NpEncoder.dumps 8
    (PyDict [ ("segmentation"%string,
               PyList [ NpInteger 3; NpFloating false (FloatBits 0);
                        NpArray (ArrAxis [Arr0 (ElemInt 1); Arr0 (ElemInt 2)]) ]) ])
  = Ok (JObj [ ("segmentation"%string,
                JArr [ JInt 3; JFloat (FloatBits 0); JArr [JInt 1; JInt 2] ]) ]).
Proof.
  apply (proj2 (proj2 (proj2 (proj2 NpEncoder_normalizes)))).
  - reflexivity.
  - simpl. lia.
Defined.

Lemma NpEncoder_default_NameError_witness :
  NpEncoder.default (PyOther "set") = Raise NameError
  /\ NpEncoder.dumps 8
       (PyDict [ ("bbox"%string, PyList [ PyInt 1; PyOther "set" ]) ])
     = Raise NameError.
Proof.
  split.
  - apply (proj1 NpEncoder_default_NameError). reflexivity.
  - apply (proj2 NpEncoder_default_NameError).
    + reflexivity.
    + simpl. lia.
Defined.

(** ** The saved name *)

Section NameFacts.

Open Scope string_scope.

Example replace_overlapping : Py.str_replace "aaa" "aa" EmptyString = "a".
Proof. reflexivity. Qed.

Example replace_empty_pattern : Py.str_replace "abc" EmptyString "-" = "-a-b-c-".
Proof. reflexivity. Qed.

Example basename_trailing_slash : Py.basename "data/images/" = EmptyString.
Proof. reflexivity. Qed.

Example saved_name_empty :
  saved_name (Some "data/a.png") "data/a.png" = Raise IndexError.
Proof. reflexivity. Qed.

Lemma prefix_append (old rest : string) : String.prefix old (old ++ rest) = true.
Proof.
  induction old as [|c old IH]; simpl.
  - destruct rest; reflexivity.
  - destruct (ascii_dec c c) as [_|Hc]; [exact IH|congruence].
Qed.

Lemma replace_from_skip (old new : string) (pre rest : string) :
  Py.replace_from old new (String.length pre) (pre ++ rest)
  = Py.replace_from old new O rest.
Proof.
  induction pre as [|c pre IH]; simpl.
  - reflexivity.
  - exact IH.
Qed.

(** A leading occurrence of the root directory is removed, and the scan
    goes on through the rest of the path. *)
Lemma str_replace_leading (dir rest : string) :
  dir <> EmptyString ->
  Py.str_replace (dir ++ rest) dir EmptyString
  = Py.str_replace rest dir EmptyString.
Proof.
  intros Hdir. destruct dir as [|c dir]; [congruence|].
  unfold Py.str_replace.
  change (String c dir ++ rest) with (String c (dir ++ rest)).
  cbn [Py.replace_from].
  change (String c (dir ++ rest)) with (String c dir ++ rest).
  rewrite prefix_append.
  change (String.length (String c dir) - 1)%nat with (String.length dir - 0)%nat.
  rewrite Nat.sub_0_r. apply replace_from_skip.
Qed.

End NameFacts.

Example saved_name_prefix :
  saved_name (Some "data/images"%string) "data/images/city/a.png"
  = Ok "city/a.png"%string.
Proof. reflexivity. Qed.

Example saved_name_basename :
  saved_name None "data/images/city/a.png" = Ok "a.png"%string.
Proof. reflexivity. Qed.

(** C8: with the root directory [a] configured, the path [a/b/a.png] is
    saved as [b/.png]: [str.replace] deletes the second occurrence of the
    root directory's name as well, inside the file name. *)
Theorem saved_name_removes_every_occurrence :
  saved_name (Some "a"%string) "a/b/a.png" = Ok "b/.png"%string.
Proof. reflexivity. Qed.

(** * Further properties *)

(** ** The partitioner: shard sizes and rejected inputs *)

Section PartitionShape.

Context {A : Type}.

(** [ceil(N / n)] windows of width [n] cover [N] items; the last one
    starts inside the list. *)
Lemma window_count (N n : Z) :
  1 <= N -> 1 <= n ->
  Py.ceil_div N n = (N - 1) / n + 1
  /\ ((N - 1) / n) * n <= N - 1 < ((N - 1) / n + 1) * n.
Proof.
  intros HN Hn.
  pose proof (Z.div_mod (N - 1) n ltac:(lia)) as E.
  pose proof (Z.mod_pos_bound (N - 1) n ltac:(lia)) as B.
  split; [|nia].
  unfold Py.ceil_div.
  assert (Hq : (- N) / n = - ((N - 1) / n + 1)).
  { symmetry. apply (Z.div_unique (- N) n _ (n * ((N - 1) / n + 1) - N)); nia. }
  rewrite Hq. lia.
Qed.

(** The shape of what the partitioner returns for [m >= 1]. *)
Lemma partition_list_shape (arr : list A) (m : Z) (chunks : list (list A)) :
  1 <= m -> partition_list arr m = Ok chunks ->
  let n := Py.ceil_div (Py.len arr) m in
  1 <= n
  /\ Py.len chunks = Py.ceil_div (Py.len arr) n
  /\ (forall k c, nth_error chunks k = Some c ->
        Py.len c = Z.min n (Py.len arr - Z.of_nat k * n)
        /\ Z.of_nat k * n <= Py.len arr - 1).
Proof.
  intros Hm E n.
  destruct (partition_list_nonempty arr m chunks Hm E) as [Hne HN].
  destruct (partition_list_windows arr m Hm Hne) as (E' & Hn & Hc).
  cbv zeta in E', Hn, Hc. fold n in E', Hn, Hc.
  pose proof (ceil_div_pos _ _ HN Hm) as Hp. fold n in Hp.
  destruct (window_count (Py.len arr) n HN Hp) as [Hcnt Hq].
  rewrite (Z2Nat.id n) in E' by lia.
  assert (Ec : chunks = map (fun k => firstn (Z.to_nat n) (skipn (k * Z.to_nat n) arr))
                            (seq 0 (Z.to_nat ((Py.len arr - 1) / n + 1))))
    by congruence.
  assert (Hq0 : 0 <= (Py.len arr - 1) / n) by (apply Z.div_pos; lia).
  split; [exact Hp|]. split.
  - rewrite Ec. unfold Py.len at 1. rewrite length_map, length_seq. lia.
  - intros k c Hk. rewrite Ec in Hk.
    rewrite nth_error_map, nth_error_seq in Hk.
    destruct (Nat.ltb_spec k (Z.to_nat ((Py.len arr - 1) / n + 1))) as [Hlt|?];
      [|discriminate].
    simpl in Hk. injection Hk as <-.
    assert (Hk' : Z.of_nat k <= (Py.len arr - 1) / n) by lia.
    split; [|nia].
    unfold Py.len. rewrite length_firstn, length_skipn.
    unfold Py.len in *. nia.
Qed.

End PartitionShape.

(** X1: for [m >= 1] the partitioner returns [ceil(N / n)] sublists,
    [n = ceil(N / m)] being the chunk size; none of them is empty, and
    every one but the last holds exactly [n] items. *)
Theorem partition_list_chunk_sizes (A : Type) (arr : list A) (m : Z)
    (chunks : list (list A)) :
  1 <= m ->
  partition_list arr m = Ok chunks ->
  Py.len chunks = Py.ceil_div (Py.len arr) (Py.ceil_div (Py.len arr) m)
  /\ Forall (fun c => 1 <= Py.len c) chunks
  /\ (forall k c, nth_error chunks k = Some c ->
                  (S k < List.length chunks)%nat ->
                  Py.len c = Py.ceil_div (Py.len arr) m).
Proof.
  intros Hm E.
  destruct (partition_list_shape arr m chunks Hm E) as (Hn & Hlen & Hk).
  destruct (partition_list_nonempty arr m chunks Hm E) as [_ HN].
  destruct (window_count (Py.len arr) _ HN Hn) as [Hcnt Hq].
  split; [exact Hlen|]. split.
  - apply Forall_forall. intros c Hin.
    apply In_nth_error in Hin. destruct Hin as [k Hin].
    destruct (Hk k c Hin) as [Hc Hstart]. lia.
  - intros k c Hin Hlast.
    destruct (Hk k c Hin) as [Hc _].
    assert (Z.of_nat k + 1 <= (Py.len arr - 1) / Py.ceil_div (Py.len arr) m)
      by (unfold Py.len in Hlen at 1; lia).
    nia.
Qed.

Lemma partition_list_chunk_sizes_witness :
  Py.len [[1; 2; 3]; [4; 5; 6]; [7]] = 3
  /\ Forall (fun c => 1 <= Py.len c) [[1; 2; 3]; [4; 5; 6]; [7]].
Proof.
  pose proof (partition_list_chunk_sizes Z [1; 2; 3; 4; 5; 6; 7] 3
                [[1; 2; 3]; [4; 5; 6]; [7]] ltac:(lia) eq_refl) as (Hlen & Hne & _).
  split; [exact Hlen | exact Hne].
Defined.

(** X2: a worker count below 1 is not rejected as such.  Within the
    range of exact floats, zero raises [ZeroDivisionError]; a negative
    count whose size exceeds the list length makes the chunk size zero and
    raises [ValueError]; any other negative count returns an empty
    partition, dropping every item. *)
Theorem partition_list_nonpositive (A : Type) (arr : list A) (m : Z) :
  m <= 0 ->
  float_exact m ->
  float_exact (Py.len arr) ->
  partition_list arr m
  = if m =? 0 then Raise ZeroDivisionError
    else if Py.len arr <? - m then Raise ValueError
    else Ok [].
Proof.
  intros Hm _ _. unfold partition_list.
  destruct (Z.eqb_spec m 0) as [->|Hm0]; [reflexivity|].
  cbv zeta. unfold Py.ceil_div.
  assert (HN : 0 <= Py.len arr) by (unfold Py.len; lia).
  assert (Hq : - Py.len arr / m = Py.len arr / - m).
  { rewrite <- (Z.opp_involutive m) at 1. apply Z.div_opp_opp. lia. }
  rewrite Hq.
  destruct (Z.ltb_spec (Py.len arr) (- m)) as [Hlt|Hge].
  - rewrite Z.div_small by lia. reflexivity.
  - assert (1 <= Py.len arr / - m).
    { apply Z.div_le_lower_bound; lia. }
    unfold Py.range.
    destruct (Z.eqb_spec (- (Py.len arr / - m)) 0) as [?|_]; [lia|].
    unfold Py.range_len.
    destruct (Z.ltb_spec 0 (- (Py.len arr / - m))) as [?|_]; [lia|].
    destruct (Z.ltb_spec (Py.len arr) 0) as [?|_]; [lia|].
    reflexivity.
Qed.

Lemma partition_list_nonpositive_witness :
  partition_list [1; 2; 3; 4] (-2) = Ok []
  /\ partition_list [1; 2; 3; 4] (-5) = Raise ValueError.
Proof.
  split.
  - apply (partition_list_nonpositive Z [1; 2; 3; 4] (-2)); [lia|reflexivity..].
  - apply (partition_list_nonpositive Z [1; 2; 3; 4] (-5)); [lia|reflexivity..].
Defined.

Lemma singleton_windows {A : Type} (arr : list A) :
  map (fun k => firstn 1 (skipn (k * 1) arr)) (seq 0 (List.length arr))
  = map (fun x => [x]) arr.
Proof.
  induction arr as [|x arr IH]; simpl.
  - reflexivity.
  - f_equal. rewrite <- seq_shift, map_map. rewrite <- IH.
    apply map_ext. intros k. reflexivity.
Qed.

(** X3: with at least as many workers as items (at least one item, and
    a worker count within the range of exact floats) every item is a
    shard of its own, so only the first [N] ranks have a shard. *)
Theorem partition_list_singletons (A : Type) (arr : list A) (m : Z) :
  1 <= Py.len arr <= m ->
  float_exact m ->
  partition_list arr m = Ok (map (fun x => [x]) arr).
Proof.
  intros [HN Hm] _.
  assert (Hne : arr <> []) by (intros ->; unfold Py.len in HN; simpl in HN; lia).
  destruct (partition_list_windows arr m ltac:(lia) Hne) as (E & _ & _).
  cbv zeta in E.
  assert (Hn : Py.ceil_div (Py.len arr) m = 1).
  { unfold Py.ceil_div.
    assert (Hq : - Py.len arr / m = - 1).
    { symmetry. apply (Z.div_unique (- Py.len arr) m (-1) (m - Py.len arr)); lia. }
    rewrite Hq. lia. }
  rewrite Hn in E. change (Z.to_nat 1) with 1%nat in E.
  change (Z.of_nat 1) with 1 in E. rewrite Z.div_1_r in E.
  replace (Z.to_nat (Py.len arr - 1 + 1)) with (List.length arr) in E
    by (unfold Py.len; lia).
  rewrite E, singleton_windows. reflexivity.
Qed.

Lemma partition_list_singletons_witness :
  partition_list [7; 8] 5 = Ok [[7]; [8]].
Proof.
  apply (partition_list_singletons Z [7; 8] 5).
  - unfold Py.len. simpl. lia.
  - reflexivity.
Defined.

(** X4: for a worker count [m >= 1] within the range of exact floats the
    partitioner returns exactly when the list is not empty. *)
Theorem partition_list_returns_iff (A : Type) (arr : list A) (m : Z) :
  1 <= m ->
  float_exact m ->
  float_exact (Py.len arr) ->
  (exists chunks, partition_list arr m = Ok chunks) <-> arr <> [].
Proof.
  intros Hm _ _. split.
  - intros [chunks E]. apply (partition_list_nonempty arr m chunks Hm E).
  - apply partition_list_returns. exact Hm.
Qed.

Lemma partition_list_returns_iff_witness :
  (exists chunks, partition_list [1; 2; 3] 2 = Ok chunks) <-> [1; 2; 3] <> [].
Proof.
  apply (partition_list_returns_iff Z [1; 2; 3] 2); [lia|reflexivity..].
Defined.

(** ** The loop of [predict]: records, failures and completion *)

Section RunFacts.

Context `{Collaborators}.


Lemma process_image_eq image_dir i im_path images annotations :
  process_image image_dir i im_path (images, annotations)
  = match saved_name image_dir im_path with
    | Ok im_file =>
        if keeps_two_axes (astype_uint8 (inference im_path))
        then Ok (images ++ [image_record i im_path im_file],
                 add_image_annotations (i + 1)
                   (get_polygons_for_all_classes (astype_uint8 (inference im_path))
                      (shape (astype_uint8 (inference im_path))))
                   annotations)
        else Raise IndexError
    | Raise e => Raise e
    end.
Proof.
  unfold process_image.
  destruct (saved_name image_dir im_path); cbn [bind]; [|reflexivity].
  destruct (squeezed_shape_items (astype_uint8 (inference im_path))) as [E1 E0].
  rewrite E1.
  destruct (keeps_two_axes (astype_uint8 (inference im_path))); cbn [bind];
    [|reflexivity].
  rewrite (E0 eq_refl). reflexivity.
Qed.

Lemma add_annotation_blank image_id class_id annotations poly :
  Forall blank_fields annotations ->
  Forall blank_fields (add_annotation image_id class_id annotations poly).
Proof.
  intros Hb. unfold add_annotation. apply Forall_app. split; [exact Hb|].
  constructor; [|constructor]. repeat split.
Qed.

Lemma add_image_annotations_blank image_id d annotations :
  Forall blank_fields annotations ->
  Forall blank_fields (add_image_annotations image_id d annotations).
Proof.
  unfold add_image_annotations. revert annotations.
  induction d as [|item d IH]; intros annotations Hb; simpl; [exact Hb|].
  apply IH. unfold add_class. generalize (snd item) as polys.
  intros polys. revert annotations Hb.
  induction polys as [|poly polys IHp]; intros annotations Hb; simpl; [exact Hb|].
  apply IHp, add_annotation_blank, Hb.
Qed.

(** The loop is the fold of the loop body, and fails only through a
    saved name. *)
Lemma predict_loop_records image_dir (shard : list string) :
  forall i images annotations images' annotations',
    predict_loop image_dir i shard (images, annotations) = Ok (images', annotations') ->
    (Forall blank_fields annotations -> Forall blank_fields annotations')
    /\ exists new,
         images' = images ++ new
         /\ List.length new = List.length shard
         /\ forall k im_path,
              nth_error shard k = Some im_path ->
              exists im_file,
                saved_name image_dir im_path = Ok im_file
                /\ nth_error new k
                   = Some (image_record (i + Z.of_nat k) im_path im_file).
Proof.
  induction shard as [|p rest IH]; intros i images annotations images' annotations'.
  - simpl. intros E. injection E as <- <-. split; [auto|].
    exists []. rewrite app_nil_r. repeat split.
    intros [|k] im_path Hk; discriminate.
  - rewrite predict_loop_cons, process_image_eq.
    destruct (saved_name image_dir p) as [im_file|e] eqn:Es; cbn [bind]; [|discriminate].
    destruct (keeps_two_axes (astype_uint8 (inference p))); cbn [bind]; [|discriminate].
    intros E. apply IH in E. destruct E as (Hb & new & -> & Hlen & Hnew).
    split.
    + intros Hb0. apply Hb, add_image_annotations_blank, Hb0.
    + exists (image_record i p im_file :: new). split; [|split].
      * now rewrite <- app_assoc.
      * simpl. now rewrite Hlen.
      * intros [|k] im_path Hk; simpl in Hk.
        -- injection Hk as <-. exists im_file. split; [exact Es|].
           simpl. do 2 f_equal. lia.
        -- destruct (Hnew k im_path Hk) as (f & Hf & Hn).
           exists f. split; [exact Hf|]. simpl. rewrite Hn.
           do 2 f_equal. lia.
Qed.



(** [predict] in terms of the shard it selects. *)
Lemma predict_unfold nranks local_rank image_list image_dir :
  predict nranks local_rank image_list image_dir
  = (shard <- select_shard nranks local_rank image_list ;;
     st <- predict_loop image_dir 0 shard ([], []) ;;
     let doc := {| doc_categories := categories;
                   doc_images := fst st;
                   doc_annotations := snd st;
                   doc_info := EmptyString;
                   doc_licenses := [] |} in
     text <- NpEncoder.dumps recursion_limit (document_obj doc) ;;
     Ok {| json_data := doc; annotations_json := text |}).
Proof.
  unfold predict, select_shard.
  destruct (if 1 <? nranks then partition_list image_list nranks else Ok [image_list])
    as [img_lists|e]; cbn [bind]; [|reflexivity].
  destruct (Py.getitem img_lists 0) as [first|e]; cbn [bind]; reflexivity.
Qed.

End RunFacts.

Section RunFacts2.

Context `{Collaborators}.

Lemma emitted_from_class i shard image_id class_id seg :
  In (image_id, class_id, seg) (emitted_from i shard) ->
  In class_id (Py.range_upto 19).
Proof.
  revert i. induction shard as [|im_path rest IH]; intros i; simpl; [tauto|].
  rewrite in_app_iff. intros [Hin|Hin]; [|exact (IH _ Hin)].
  unfold emitted_for_image in Hin. apply in_flat_map in Hin.
  destruct Hin as (c & Hc & Hin). apply in_map_iff in Hin.
  destruct Hin as (poly & E & _). injection E as _ <- _. exact Hc.
Qed.

Lemma category_ids : map cat_id categories = Py.range_upto 19.
Proof. reflexivity. Qed.

Lemma select_shard_partition nranks local_rank (image_list : list string) chunks :
  1 < nranks ->
  partition_list image_list nranks = Ok chunks ->
  select_shard nranks local_rank image_list
  = match nth_error chunks local_rank with
    | Some shard => Ok shard
    | None => Raise IndexError
    end.
Proof.
  intros Hn E. unfold select_shard.
  destruct (Z.ltb_spec 1 nranks) as [_|?]; [|lia].
  rewrite E. cbn [bind].
  destruct (partition_list_shape image_list nranks chunks ltac:(lia) E) as (Hp & Hlen & _).
  destruct (partition_list_nonempty image_list nranks chunks ltac:(lia) E) as [_ HN].
  destruct (window_count _ _ HN Hp) as [Hc _].
  destruct chunks as [|first chunks'].
  - unfold Py.len in Hlen at 1. simpl in Hlen.
    assert (0 <= (Py.len image_list - 1) / Py.ceil_div (Py.len image_list) nranks)
      by (apply Z.div_pos; lia).
    lia.
  - reflexivity.
Qed.

End RunFacts2.

(** A label map of one row loses an axis in the squeeze, and
    [pred.shape[1]] raises [IndexError] before anything is opened. *)
Example one_row_map_raises :
  @predict_with_file Flat.world 1 0 ["data/a.png"%string] None
  = (Untouched, Raise IndexError).
Proof. reflexivity. Qed.



(** X6: with more than one rank, a rank at or beyond the number of
    sublists the partitioner returns has no shard: [predict] stops with
    [IndexError] at [img_lists[local_rank]]. *)
Theorem predict_rank_without_shard `{Collaborators}
    (nranks : Z) (local_rank : nat) (image_list : list string)
    (image_dir : option string) :
  1 < nranks ->
  image_list <> [] ->
  Py.ceil_div (Py.len image_list) (Py.ceil_div (Py.len image_list) nranks)
  <= Z.of_nat local_rank ->
  predict nranks local_rank image_list image_dir = Raise IndexError.
Proof.
  intros Hn Hne Hrank.
  destruct (partition_list_returns image_list nranks ltac:(lia) Hne) as [chunks E].
  destruct (partition_list_shape image_list nranks chunks ltac:(lia) E) as (_ & Hlen & _).
  rewrite predict_unfold, (select_shard_partition _ _ _ chunks Hn E).
  assert (Hnone : nth_error chunks local_rank = None).
  { apply nth_error_None. unfold Py.len in Hlen at 1. lia. }
  now rewrite Hnone.
Qed.

Lemma predict_rank_without_shard_witness :
  @predict Demo.world 3 2 ["a"; "b"; "c"; "d"]%string None = Raise IndexError.
Proof.
  apply (@predict_rank_without_shard Demo.world 3 2 ["a"; "b"; "c"; "d"]%string None).
  - lia.
  - discriminate.
  - vm_compute. discriminate.
Defined.

(** X7: with more than one rank, an empty image list makes every rank's
    [predict] stop with [ValueError], raised by the partitioner. *)
Theorem predict_empty_list_many_ranks `{Collaborators}
    (nranks : Z) (local_rank : nat) (image_dir : option string) :
  1 < nranks ->
  predict nranks local_rank [] image_dir = Raise ValueError.
Proof.
  intros Hn. unfold predict.
  destruct (Z.ltb_spec 1 nranks) as [_|?]; [|lia].
  now rewrite partition_list_empty by lia.
Qed.

Lemma predict_empty_list_many_ranks_witness :
  @predict Demo.world 2 0 [] None = Raise ValueError.
Proof.
  apply (@predict_empty_list_many_ranks Demo.world 2 0 None). lia.
Defined.

(** X8: every annotation record of a completed run has [iscrowd = 0],
    [area = 0], an empty [bbox] and a [segmentation] of exactly one
    coordinate list. *)
Theorem annotations_blank_fields `{Collaborators}
    (nranks : Z) (local_rank : nat) (image_list : list string)
    (image_dir : option string) (run : Run) :
  predict nranks local_rank image_list image_dir = Ok run ->
  Forall blank_fields (doc_annotations (json_data run)).
Proof.
  intros E. apply predict_ok in E. destruct E as (shard & _ & Hl & _).
  apply predict_loop_records in Hl. destruct Hl as [Hb _].
  apply Hb. constructor.
Qed.

Lemma annotations_blank_fields_witness :
  exists run,
    @predict Demo.world 1 0 Demo.images None = Ok run
    /\ Forall blank_fields (doc_annotations (json_data run)).
Proof.
  destruct (@predict Demo.world 1 0 Demo.images None) as [run|e] eqn:E.
  - exists run. split; [reflexivity|].
    apply (@annotations_blank_fields Demo.world 1 0 Demo.images None run E).
  - vm_compute in E. discriminate.
Defined.

(** X9: in the document of a completed run every annotation's [image_id]
    is the [id] of one of the document's image records. *)
Theorem annotation_image_ids_resolve `{Collaborators}
    (nranks : Z) (local_rank : nat) (image_list : list string)
    (image_dir : option string) (run : Run) :
  predict nranks local_rank image_list image_dir = Ok run ->
  forall a, In a (doc_annotations (json_data run)) ->
            exists image, In image (doc_images (json_data run))
                          /\ img_id image = ann_image_id a.
Proof.
  intros E a Ha. apply predict_ok in E. destruct E as (shard & _ & Hl & _).
  pose proof (predict_loop_ok _ _ _ _ _ _ _ Hl) as (_ & _ & _ & _ & Hkey & _).
  pose proof (predict_loop_records _ _ _ _ _ _ _ Hl) as (_ & new & Hnew & _ & Hrec).
  simpl in Hkey, Hnew.
  assert (Hin : In (ann_key a) (emitted_from 0 shard)).
  { rewrite <- Hkey. apply in_map, Ha. }
  unfold ann_key in Hin. apply emitted_from_origin in Hin.
  destruct Hin as (j & p & poly & Hj & Hid & _).
  destruct (Hrec j p Hj) as (f & _ & Hn).
  exists (image_record (0 + Z.of_nat j) p f). split.
  - rewrite Hnew. apply (nth_error_In _ _ Hn).
  - simpl. lia.
Qed.

Lemma annotation_image_ids_resolve_witness :
  exists run,
    @predict Demo.world 1 0 Demo.images None = Ok run
    /\ forall a, In a (doc_annotations (json_data run)) ->
                 exists image, In image (doc_images (json_data run))
                               /\ img_id image = ann_image_id a.
Proof.
  destruct (@predict Demo.world 1 0 Demo.images None) as [run|e] eqn:E.
  - exists run. split; [reflexivity|].
    apply (@annotation_image_ids_resolve Demo.world 1 0 Demo.images None run E).
  - vm_compute in E. discriminate.
Defined.

(** X10: in the document of a completed run every annotation's
    [category_id] is the [id] of an entry of the document's category
    table: the loop over [range(19)] and the table of 19 categories
    agree. *)
Theorem annotation_categories_resolve `{Collaborators}
    (nranks : Z) (local_rank : nat) (image_list : list string)
    (image_dir : option string) (run : Run) :
  predict nranks local_rank image_list image_dir = Ok run ->
  forall a, In a (doc_annotations (json_data run)) ->
            exists cat, In cat (doc_categories (json_data run))
                        /\ cat_id cat = ann_category_id a.
Proof.
  intros E a Ha. apply predict_ok in E. destruct E as (shard & _ & Hl & Hcat).
  pose proof (predict_loop_ok _ _ _ _ _ _ _ Hl) as (_ & _ & _ & _ & Hkey & _).
  simpl in Hkey.
  assert (Hin : In (ann_key a) (emitted_from 0 shard)).
  { rewrite <- Hkey. apply in_map, Ha. }
  unfold ann_key in Hin. apply emitted_from_class in Hin.
  rewrite <- category_ids in Hin. apply in_map_iff in Hin.
  destruct Hin as (cat & Hid & Hc). exists cat. rewrite Hcat. split; assumption.
Qed.

Lemma annotation_categories_resolve_witness :
  exists run,
    @predict Demo.world 1 0 Demo.images None = Ok run
    /\ forall a, In a (doc_annotations (json_data run)) ->
                 exists cat, In cat (doc_categories (json_data run))
                             /\ cat_id cat = ann_category_id a.
Proof.
  destruct (@predict Demo.world 1 0 Demo.images None) as [run|e] eqn:E.
  - exists run. split; [reflexivity|].
    apply (@annotation_categories_resolve Demo.world 1 0 Demo.images None run E).
  - vm_compute in E. discriminate.
Defined.

(** X11: the image record at position [k] of a completed run belongs to
    the [k]-th path of the shard: its width and height are the columns
    and rows of that image's label map, its file name is the path's saved
    name, and its four remaining text fields are empty. *)
Theorem image_records_content `{Collaborators}
    (nranks : Z) (local_rank : nat) (image_list : list string)
    (image_dir : option string) (run : Run) :
  predict nranks local_rank image_list image_dir = Ok run ->
  exists shard,
    select_shard nranks local_rank image_list = Ok shard
    /\ List.length (doc_images (json_data run)) = List.length shard
    /\ forall k im_path,
         nth_error shard k = Some im_path ->
         exists im_file,
           saved_name image_dir im_path = Ok im_file
           /\ nth_error (doc_images (json_data run)) k
              = Some {| img_id := Z.of_nat k + 1;
                        img_width := snd (shape (astype_uint8 (inference im_path)));
                        img_height := fst (shape (astype_uint8 (inference im_path)));
                        img_file_name := im_file;
                        img_license := EmptyString;
                        img_flickr_url := EmptyString;
                        img_coco_url := EmptyString;
                        img_date_captured := EmptyString |}.
Proof.
  intros E. apply predict_ok in E. destruct E as (shard & Hs & Hl & _).
  apply predict_loop_records in Hl. destruct Hl as (_ & new & Hnew & Hlen & Hrec).
  simpl in Hnew. exists shard. rewrite Hnew.
  split; [exact Hs|]. split; [exact Hlen|].
  intros k p Hk. destruct (Hrec k p Hk) as (f & Hf & Hn).
  exists f. split; [exact Hf|]. rewrite Hn. reflexivity.
Qed.

Lemma image_records_content_witness :
  exists run,
    @predict Demo.world 1 0 Demo.images None = Ok run
    /\ List.length (doc_images (json_data run)) = 2%nat.
Proof.
  destruct (@predict Demo.world 1 0 Demo.images None) as [run|e] eqn:E.
  - exists run. split; [reflexivity|].
    destruct (@image_records_content Demo.world 1 0 Demo.images None run E)
      as (shard & Hs & Hlen & _).
    vm_compute in Hs. injection Hs as <-. exact Hlen.
  - vm_compute in E. discriminate.
Defined.

(** ** Serializing the document of a run *)

Section DocumentFacts.

Context `{Collaborators}.

Lemma forallb_flat {X Y : Type} (p : Y -> bool) (f : X -> list Y) (l : list X) :
  forallb p (flat_map f l) = forallb (fun x => forallb p (f x)) l.
Proof.
  induction l as [|x l IH]; simpl; [reflexivity|].
  now rewrite forallb_app, IH.
Qed.

Lemma forallb_mapped {X Y : Type} (p : Y -> bool) (f : X -> Y) (l : list X) :
  forallb p (map f l) = forallb (fun x => p (f x)) l.
Proof.
  induction l as [|x l IH]; simpl; [reflexivity|now rewrite IH].
Qed.

Lemma forallb_concat {X : Type} (p : X -> bool) (ls : list (list X)) :
  forallb p (List.concat ls) = forallb (forallb p) ls.
Proof.
  induction ls as [|l ls IH]; simpl; [reflexivity|].
  now rewrite forallb_app, IH.
Qed.

Lemma wrappers_annotation (a : AnnotationRecord) :
  ann_bbox a = [] ->
  only_numpy_wrappers (annotation_obj a)
  = forallb only_numpy_wrappers (List.concat (ann_segmentation a)).
Proof.
  intros Hb. unfold annotation_obj. rewrite Hb.
  change (only_numpy_wrappers (PyDict ?e))
    with (forallb (fun kv : string * pyobj => let '(_, v) := kv in only_numpy_wrappers v) e).
  cbn [forallb].
  change (only_numpy_wrappers (PyList (map PyList (ann_segmentation a))))
    with (forallb only_numpy_wrappers (map PyList (ann_segmentation a))).
  rewrite forallb_mapped, forallb_concat.
  cbn. rewrite !andb_true_r. reflexivity.
Qed.

Lemma forallb_agree {X : Type} (p q : X -> bool) (l : list X) :
  (forall x, In x l -> p x = q x) -> forallb p l = forallb q l.
Proof.
  induction l as [|x l IH]; intros Hpq; simpl; [reflexivity|].
  rewrite (Hpq x (or_introl eq_refl)), IH; [reflexivity|].
  intros y Hy. apply Hpq. right. exact Hy.
Qed.

Lemma wrappers_image (im : ImageRecord) :
  only_numpy_wrappers (image_obj im) = true.
Proof. reflexivity. Qed.

Lemma wrappers_categories :
  forallb only_numpy_wrappers (map category_obj categories) = true.
Proof. reflexivity. Qed.

Lemma wrappers_document images annotations :
  Forall blank_fields annotations ->
  only_numpy_wrappers
    (document_obj {| doc_categories := categories;
                     doc_images := images;
                     doc_annotations := annotations;
                     doc_info := EmptyString;
                     doc_licenses := [] |})
  = forallb only_numpy_wrappers (doc_coordinates annotations).
Proof.
  intros Hb. unfold document_obj, doc_coordinates. cbn [doc_categories doc_images
    doc_annotations doc_info doc_licenses].
  change (only_numpy_wrappers (PyDict ?e))
    with (forallb (fun kv : string * pyobj => let '(_, v) := kv in only_numpy_wrappers v) e).
  cbn [forallb].
  change (only_numpy_wrappers (PyList ?l)) with (forallb only_numpy_wrappers l).
  rewrite wrappers_categories.
  assert (Ei : forallb only_numpy_wrappers (map image_obj images) = true).
  { rewrite forallb_mapped. apply forallb_forall. intros im _. apply wrappers_image. }
  rewrite Ei. cbn [forallb only_numpy_wrappers andb].
  rewrite andb_true_r, forallb_mapped, forallb_flat.
  apply forallb_agree. intros a Ha.
  apply wrappers_annotation.
  rewrite Forall_forall in Hb. apply (Hb a Ha).
Qed.

Lemma depth_list_le (items : list pyobj) (n : nat) :
  Forall (fun o => (depth o <= n)%nat) items -> (depth (PyList items) <= S n)%nat.
Proof.
  intros Hf. change (depth (PyList items)) with (S (list_max (map depth items))).
  apply le_n_S, list_max_le, Forall_map. exact Hf.
Qed.

Lemma depth_dict_le (entries : list (string * pyobj)) (n : nat) :
  Forall (fun kv => (depth (snd kv) <= n)%nat) entries ->
  (depth (PyDict entries) <= S n)%nat.
Proof.
  intros Hf.
  change (depth (PyDict entries))
    with (S (list_max (map (fun kv : string * pyobj => let '(_, v) := kv in depth v)
                           entries))).
  apply le_n_S, list_max_le, Forall_map.
  eapply Forall_impl; [|exact Hf]. intros [k v]. simpl. auto.
Qed.

Ltac each_entry :=
  repeat (apply Forall_cons; [simpl snd|]); try apply Forall_nil;
  try (simpl; lia).

Lemma depth_annotation (a : AnnotationRecord) (M : nat) :
  ann_bbox a = [] ->
  Forall (fun c => (depth c <= M)%nat) (List.concat (ann_segmentation a)) ->
  (depth (annotation_obj a) <= 3 + M)%nat.
Proof.
  intros Hb Hc. unfold annotation_obj. rewrite Hb.
  apply (depth_dict_le _ (2 + M)). each_entry.
  apply (depth_list_le _ (1 + M)). apply Forall_map.
  apply Forall_forall. intros seg Hseg.
  apply (depth_list_le _ M). apply Forall_forall. intros c Hin.
  rewrite Forall_forall in Hc. apply Hc.
  apply in_concat. exists seg. split; assumption.
Qed.

Lemma depth_document images annotations (M : nat) :
  Forall blank_fields annotations ->
  Forall (fun c => (depth c <= M)%nat) (doc_coordinates annotations) ->
  (depth (document_obj {| doc_categories := categories;
                          doc_images := images;
                          doc_annotations := annotations;
                          doc_info := EmptyString;
                          doc_licenses := [] |}) <= 5 + M)%nat.
Proof.
  intros Hb Hc. unfold document_obj. cbn [doc_categories doc_images
    doc_annotations doc_info doc_licenses].
  apply (depth_dict_le _ (4 + M)). each_entry.
  - apply (depth_list_le _ (3 + M)). apply Forall_map.
    apply Forall_forall. intros im _.
    apply (depth_dict_le _ (2 + M)). each_entry.
  - apply (depth_list_le _ (3 + M)). apply Forall_map.
    apply Forall_forall. intros a Ha.
    rewrite Forall_forall in Hb. destruct (Hb a Ha) as (_ & _ & Hbbox & _).
    apply depth_annotation; [exact Hbbox|].
    apply Forall_forall. intros c Hin.
    rewrite Forall_forall in Hc. apply Hc.
    unfold doc_coordinates. apply in_flat_map. exists a. split; assumption.
Qed.

Lemma below_list_max (l : list pyobj) :
  Forall (fun c => (depth c <= list_max (map depth l))%nat) l.
Proof.
  assert (Hm : Forall (fun k => (k <= list_max (map depth l))%nat) (map depth l))
    by (apply list_max_le; lia).
  apply Forall_map in Hm. exact Hm.
Qed.

(** The coordinates of the appended annotations are the tracer's. *)
Lemma emitted_coordinates i (shard : list string) :
  flat_map (fun key : Z * Z * list (list pyobj) => List.concat (snd key))
           (emitted_from i shard)
  = shard_coordinates shard.
Proof.
  unfold shard_coordinates. revert i.
  induction shard as [|p rest IH]; intros i; cbn [emitted_from flat_map].
  - reflexivity.
  - rewrite flat_map_app, IH. f_equal.
    unfold emitted_for_image, image_coordinates.
    generalize (Py.range_upto 19) as l.
    induction l as [|c l IHl]; cbn [flat_map]; [reflexivity|].
    rewrite flat_map_app, IHl. f_equal.
    generalize (polygons_of_class (astype_uint8 (inference p)) c) as polys.
    induction polys as [|poly polys IHp]; cbn [flat_map map]; [reflexivity|].
    rewrite IHp. cbn. now rewrite app_nil_r.
Qed.

Lemma doc_coordinates_keys (annotations : list AnnotationRecord) :
  doc_coordinates annotations
  = flat_map (fun key : Z * Z * list (list pyobj) => List.concat (snd key))
             (map ann_key annotations).
Proof.
  unfold doc_coordinates.
  induction annotations as [|a l IH]; cbn [flat_map map]; [reflexivity|].
  now rewrite IH.
Qed.

(** The outcome of [predict] once the loop has run: the document is
    written if every coordinate is a JSON value or one of the numpy
    kinds, and [NameError] is raised otherwise. *)
Lemma predict_outcome nranks local_rank image_list image_dir shard images annotations :
  select_shard nranks local_rank image_list = Ok shard ->
  predict_loop image_dir 0 shard ([], []) = Ok (images, annotations) ->
  (5 + list_max (map depth (shard_coordinates shard)) <= recursion_limit)%nat ->
  let doc := {| doc_categories := categories;
                doc_images := images;
                doc_annotations := annotations;
                doc_info := EmptyString;
                doc_licenses := [] |} in
  predict nranks local_rank image_list image_dir
  = if forallb only_numpy_wrappers (shard_coordinates shard)
    then Ok {| json_data := doc;
               annotations_json := normalized_spec (document_obj doc) |}
    else Raise NameError.
Proof.
  intros Hs Hl Hdepth doc.
  pose proof (predict_loop_ok _ _ _ _ _ _ _ Hl) as (_ & _ & _ & _ & Hkey & _).
  pose proof (predict_loop_records _ _ _ _ _ _ _ Hl) as (Hb & _).
  specialize (Hb (Forall_nil _)). simpl in Hkey.
  assert (Hco : doc_coordinates annotations = shard_coordinates shard).
  { rewrite doc_coordinates_keys, Hkey. apply emitted_coordinates. }
  rewrite predict_unfold, Hs. cbn [bind]. rewrite Hl. cbn [bind fst snd].
  fold doc. unfold NpEncoder.dumps.
  rewrite iterencode_cases.
  - unfold doc. rewrite wrappers_document by exact Hb. rewrite Hco.
    destruct (forallb only_numpy_wrappers (shard_coordinates shard)); reflexivity.
  - eapply Nat.le_trans; [|exact Hdepth].
    apply depth_document; [exact Hb|]. rewrite Hco. apply below_list_max.
Qed.

End DocumentFacts.

Section FileFacts.

Context `{Collaborators}.

(** [predict_with_file] returns what [predict] returns. *)
Lemma predict_with_file_result nranks local_rank image_list image_dir :
  snd (predict_with_file nranks local_rank image_list image_dir)
  = predict nranks local_rank image_list image_dir.
Proof.
  unfold predict_with_file, predict.
  destruct (if 1 <? nranks then partition_list image_list nranks else Ok [image_list])
    as [img_lists|e]; cbn [bind]; [|reflexivity].
  destruct (Py.getitem img_lists 0) as [first|e]; cbn [bind]; [|reflexivity].
  destruct (Py.getitem img_lists local_rank) as [shard|e]; cbn [bind]; [|reflexivity].
  destruct (predict_loop image_dir 0 shard ([], [])) as [st|e]; cbn [bind];
    [|reflexivity].
  destruct (NpEncoder.dumps recursion_limit _) as [text|e]; reflexivity.
Qed.

(** The file after a run whose loop has finished. *)
Lemma predict_with_file_after_loop nranks local_rank image_list image_dir shard st :
  select_shard nranks local_rank image_list = Ok shard ->
  predict_loop image_dir 0 shard ([], []) = Ok st ->
  fst (predict_with_file nranks local_rank image_list image_dir)
  = match predict nranks local_rank image_list image_dir with
    | Ok run => Holds (annotations_json run)
    | Raise _ => Emptied
    end.
Proof.
  unfold select_shard, predict_with_file, predict.
  destruct (if 1 <? nranks then partition_list image_list nranks else Ok [image_list])
    as [img_lists|e]; cbn [bind]; [|discriminate].
  destruct (Py.getitem img_lists 0) as [first|e]; cbn [bind]; [|discriminate].
  intros Hs Hl. rewrite Hs. cbn [bind]. rewrite Hl. cbn [bind].
  destruct (NpEncoder.dumps recursion_limit _) as [text|e]; reflexivity.
Qed.

End FileFacts.

(** The outcome of [predict] for every large enough recursion limit. *)
Lemma predict_outcome_eventually (w : Collaborators)
    nranks local_rank image_list image_dir shard images annotations :
  select_shard nranks local_rank image_list = Ok shard ->
  @predict_loop w image_dir 0 shard ([], []) = Ok (images, annotations) ->
  let doc := {| doc_categories := categories;
                doc_images := images;
                doc_annotations := annotations;
                doc_info := EmptyString;
                doc_licenses := [] |} in
  exists depth_needed,
    forall limit, (depth_needed <= limit)%nat ->
      @predict (with_limit w limit) nranks local_rank image_list image_dir
      = (if forallb only_numpy_wrappers (@shard_coordinates w shard)
         then Ok {| json_data := doc;
                    annotations_json := normalized_spec (document_obj doc) |}
         else Raise NameError)
      /\ fst (@predict_with_file (with_limit w limit)
                nranks local_rank image_list image_dir)
         = (if forallb only_numpy_wrappers (@shard_coordinates w shard)
            then Holds (normalized_spec (document_obj doc))
            else Emptied).
Proof.
  intros Hs Hl doc.
  exists (5 + list_max (map depth (@shard_coordinates w shard)))%nat.
  intros limit Hlimit.
  assert (Hl' : @predict_loop (with_limit w limit) image_dir 0 shard ([], [])
                = Ok (images, annotations)) by exact Hl.
  assert (Hd : (5 + list_max (map depth (@shard_coordinates (with_limit w limit) shard))
                <= @recursion_limit (with_limit w limit))%nat) by exact Hlimit.
  pose proof (@predict_outcome (with_limit w limit) nranks local_rank image_list
                image_dir shard images annotations Hs Hl' Hd) as E.
  cbv zeta in E.
  change (@shard_coordinates (with_limit w limit) shard)
    with (@shard_coordinates w shard) in E.
  split; [exact E|].
  rewrite (@predict_with_file_after_loop (with_limit w limit) _ _ _ _ _ _ Hs Hl'), E.
  destruct (forallb only_numpy_wrappers (@shard_coordinates w shard)); reflexivity.
Qed.





(** X14: a single process given an empty image list completes, for every
    recursion limit that is large enough: the document written has no
    image and no annotation but all 19 categories. *)
Theorem predict_empty_list_single `{w : Collaborators}
    (nranks : Z) (image_dir : option string) :
  nranks <= 1 ->
  exists depth_needed,
    forall limit, (depth_needed <= limit)%nat ->
      @predict (with_limit w limit) nranks 0 [] image_dir
      = Ok {| json_data := empty_document;
              annotations_json := normalized_spec (document_obj empty_document) |}
      /\ fst (@predict_with_file (with_limit w limit) nranks 0 [] image_dir)
         = Holds (normalized_spec (document_obj empty_document))
      /\ doc_images empty_document = []
      /\ doc_annotations empty_document = []
      /\ List.length (doc_categories empty_document) = 19%nat.
Proof.
  intros Hn.
  assert (Hs : select_shard nranks 0 [] = Ok []).
  { unfold select_shard. destruct (Z.ltb_spec 1 nranks) as [?|_]; [lia|reflexivity]. }
  destruct (predict_outcome_eventually w nranks 0%nat [] image_dir [] [] [] Hs eq_refl)
    as [n0 Hn0].
  exists n0. intros limit Hlimit. destruct (Hn0 limit Hlimit) as [Ep Ef].
  split; [exact Ep|]. split; [exact Ef|]. repeat split.
Qed.

Lemma predict_empty_list_single_witness :
  exists depth_needed,
    forall limit, (depth_needed <= limit)%nat ->
      @predict (with_limit Demo.world limit) 1 0 [] None
      = Ok {| json_data := empty_document;
              annotations_json := normalized_spec (document_obj empty_document) |}.
Proof.
  destruct (@predict_empty_list_single Demo.world 1 None ltac:(lia)) as [n0 Hn0].
  exists n0. intros limit Hlimit. exact (proj1 (Hn0 limit Hlimit)).
Defined.

(** ** The saved name: when it is the relative path *)

Section NameFacts2.

Open Scope string_scope.

Lemma replace_no_occurrence (old new s : string) :
  occurs old s = false -> Py.replace_from old new O s = s.
Proof.
  induction s as [|c s IH]; intros Ho.
  - reflexivity.
  - cbn [occurs] in Ho. apply orb_false_iff in Ho. destruct Ho as [Hp Ho].
    cbn [Py.replace_from]. rewrite Hp, IH by exact Ho. reflexivity.
Qed.

Lemma append_empty_r (s : string) : s ++ EmptyString = s.
Proof. induction s as [|c s IH]; simpl; [reflexivity|now rewrite IH]. Qed.

Lemma rfind_from_absent (c : ascii) (s : string) (pos last : Z) :
  contains_char c s = false -> Py.rfind_from c s pos last = last.
Proof.
  revert pos last. induction s as [|d s IH]; intros pos last Hc; simpl.
  - reflexivity.
  - simpl in Hc. apply orb_false_iff in Hc. destruct Hc as [Hd Hc].
    rewrite Hd. apply IH, Hc.
Qed.

Lemma rfind_from_append (c : ascii) (d s : string) (pos last : Z) :
  Py.rfind_from c (d ++ s) pos last
  = Py.rfind_from c s (pos + Z.of_nat (String.length d)) (Py.rfind_from c d pos last).
Proof.
  revert pos last. induction d as [|x d IH]; intros pos last; simpl String.append.
  - simpl. f_equal. lia.
  - cbn [Py.rfind_from String.length]. rewrite IH. f_equal. lia.
Qed.

Lemma substring_whole (s : string) : String.substring 0 (String.length s) s = s.
Proof. induction s as [|c s IH]; simpl; [reflexivity|now rewrite IH]. Qed.

Lemma substring_drop (a b : string) (k n : nat) :
  String.substring (String.length a + k) n (a ++ b) = String.substring k n b.
Proof. induction a as [|c a IH]; simpl; [reflexivity|exact IH]. Qed.

Lemma length_append (a b : string) :
  String.length (a ++ b) = (String.length a + String.length b)%nat.
Proof. induction a as [|c a IH]; simpl; [reflexivity|now rewrite IH]. Qed.

(** The base name of a path whose last component has no separator. *)
Lemma basename_last (d f : string) :
  contains_char "/" f = false ->
  Py.basename (d ++ String "/" f) = f.
Proof.
  intros Hf. unfold Py.basename, Py.rfind.
  rewrite rfind_from_append. cbn [Py.rfind_from].
  change (Ascii.eqb "/" "/") with true. cbn iota.
  rewrite rfind_from_absent by exact Hf.
  replace (Z.to_nat (0 + Z.of_nat (String.length d) + 1))
    with (String.length d + 1)%nat by lia.
  rewrite length_append. cbn [String.length].
  replace (String.length d + S (String.length f) - (String.length d + 1))%nat
    with (String.length f) by lia.
  rewrite substring_drop. simpl. apply substring_whole.
Qed.

End NameFacts2.

(** X15: when a root directory is configured and its name occurs in the
    path only as the leading prefix, followed by a slash, the saved name
    is the path relative to the root. *)
Theorem saved_name_under_root (dir rel : string) :
  dir <> EmptyString ->
  occurs dir (String "/" rel) = false ->
  saved_name (Some dir) (String.append dir (String "/" rel)) = Ok rel.
Proof.
  intros Hdir Ho. unfold saved_name.
  rewrite str_replace_leading by exact Hdir.
  unfold Py.str_replace. destruct dir as [|c dir]; [congruence|].
  rewrite replace_no_occurrence by exact Ho. reflexivity.
Qed.

Lemma saved_name_under_root_witness :
  saved_name (Some "data/images"%string) "data/images/city/a.png"
  = Ok "city/a.png"%string.
Proof.
  apply (saved_name_under_root "data/images" "city/a.png").
  - discriminate.
  - reflexivity.
Defined.

(** X16: when no root directory is configured, the saved name of a path
    is its last component, the part after the last slash, provided that
    part does not start with a backslash. *)
Theorem saved_name_last_component (d : string) (c : ascii) (f : string) :
  contains_char "/" (String c f) = false ->
  is_sep c = false ->
  saved_name None (String.append d (String "/" (String c f))) = Ok (String c f).
Proof.
  intros Hf Hc. unfold saved_name.
  rewrite basename_last by exact Hf. simpl. now rewrite Hc.
Qed.

Lemma saved_name_last_component_witness :
  saved_name None "data/images/city/a.png" = Ok "a.png"%string.
Proof.
  apply (saved_name_last_component "data/images/city" "a" ".png"); reflexivity.
Defined.

(** X17: an image whose path is the configured root itself has an empty
    saved name, and [im_file[0]] raises [IndexError]. *)
Theorem saved_name_of_root (p : string) :
  saved_name (Some p) p = Raise IndexError.
Proof.
  unfold saved_name. destruct p as [|c p].
  - reflexivity.
  - rewrite <- (append_empty_r (String c p)) at 1.
    rewrite str_replace_leading by discriminate. reflexivity.
Qed.

(** ** The collected mapping, key by key *)

Section MappingFacts.

Context `{Collaborators}.

Lemma range_upto_In (n : nat) (c : Z) :
  In c (Py.range_upto n) <-> 0 <= c < Z.of_nat n.
Proof.
  unfold Py.range_upto. rewrite in_map_iff. split.
  - intros (k & <- & Hk). apply in_seq in Hk. lia.
  - intros Hc. exists (Z.to_nat c). split; [lia|]. apply in_seq. lia.
Qed.

Lemma entries_lookup pred img_size (l : list Z) (c : Z) :
  NoDup l ->
  Dict.lookup c (flat_map (entry_of pred img_size) l)
  = if in_dec Z.eq_dec c l then get_polygon (class_mask pred c) img_size else None.
Proof.
  induction l as [|x l IH]; intros Hnd.
  - reflexivity.
  - inversion Hnd as [|? ? Hx Hnd']; subst. cbn [flat_map].
    specialize (IH Hnd').
    destruct (in_dec Z.eq_dec c (x :: l)) as [Hin|Hout].
    + unfold entry_of at 1.
      destruct (Z.eq_dec x c) as [->|Hne].
      * destruct (get_polygon (class_mask pred c) img_size) as [ps|] eqn:E; simpl.
        -- now rewrite Z.eqb_refl.
        -- apply dict_lookup_absent. intros Hk. apply entry_keys in Hk. contradiction.
      * assert (Hl : In c l) by (destruct Hin; [contradiction|assumption]).
        destruct (in_dec Z.eq_dec c l) as [_|?]; [|contradiction].
        destruct (get_polygon (class_mask pred x) img_size) as [ps|]; simpl.
        -- destruct (Z.eqb_spec x c); [contradiction|exact IH].
        -- exact IH.
    + assert (Hl : ~ In c l) by (intros Hl; apply Hout; right; exact Hl).
      assert (Hne : x <> c) by (intros ->; apply Hout; left; reflexivity).
      destruct (in_dec Z.eq_dec c l) as [?|_]; [contradiction|].
      unfold entry_of at 1.
      destruct (get_polygon (class_mask pred x) img_size) as [ps|]; simpl.
      * destruct (Z.eqb_spec x c); [contradiction|exact IH].
      * exact IH.
Qed.

End MappingFacts.

(** X18: the mapping [get_polygons_for_all_classes] returns holds, under
    every class id from 0 to 18, exactly the polygon list the tracer
    returned for that class's mask (no entry if it returned [None]), and
    holds nothing under any other key. *)
Theorem get_polygons_lookup `{Collaborators}
    (pred : array2) (img_size : Z * Z) (class_id : Z) :
  (0 <= class_id < 19 ->
   Dict.lookup class_id (get_polygons_for_all_classes pred img_size)
   = get_polygon (class_mask pred class_id) img_size)
  /\ (~ 0 <= class_id < 19 ->
      Dict.lookup class_id (get_polygons_for_all_classes pred img_size) = None).
Proof.
  rewrite get_polygons_for_all_classes_eq. unfold class_entries.
  rewrite entries_lookup by apply range_upto_NoDup.
  split; intros Hc.
  - destruct (in_dec Z.eq_dec class_id (Py.range_upto 19)) as [_|Hout]; [reflexivity|].
    exfalso. apply Hout, range_upto_In. simpl. lia.
  - destruct (in_dec Z.eq_dec class_id (Py.range_upto 19)) as [Hin|_]; [|reflexivity].
    apply range_upto_In in Hin. simpl in Hin. lia.
Qed.

Lemma get_polygons_lookup_witness :
  Dict.lookup 2 (@get_polygons_for_all_classes Demo.world Demo.label_map (4, 4))
  = Demo.tracer (class_mask Demo.label_map 2) (4, 4)
  /\ Dict.lookup 19 (@get_polygons_for_all_classes Demo.world Demo.label_map (4, 4))
     = None.
Proof.
  split.
  - apply (proj1 (@get_polygons_lookup Demo.world Demo.label_map (4, 4) 2)). lia.
  - apply (proj2 (@get_polygons_lookup Demo.world Demo.label_map (4, 4) 19)). lia.
Defined.

(** X19: a pixel is foreground in the mask of its own label and in no
    other mask; a pixel whose label is outside 0..18 is therefore
    background in all 19 masks and never reaches the tracer as
    foreground. *)
Theorem masks_partition_pixels (pred : array2) (r c : nat) (v : Z) :
  pixel pred r c = Some v ->
  (forall class_id, pixel (class_mask pred class_id) r c = Some 255 <-> class_id = v)
  /\ (~ 0 <= v < 19 ->
      forall class_id, In class_id (Py.range_upto 19) ->
                       pixel (class_mask pred class_id) r c = Some 0).
Proof.
  intros Hv. split.
  - intros class_id. rewrite class_mask_pixel, Hv. simpl.
    destruct (Z.eqb_spec v class_id) as [->|Hne]; split; intros E;
      try reflexivity; try congruence.
  - intros Hout class_id Hin. apply range_upto_In in Hin. simpl in Hin.
    rewrite class_mask_pixel, Hv. simpl.
    destruct (Z.eqb_spec v class_id) as [->|_]; [lia|reflexivity].
Qed.

Lemma masks_partition_pixels_witness :
  pixel Demo.label_map 0 2 = Some 1
  /\ (forall class_id,
        pixel (class_mask Demo.label_map class_id) 0 2 = Some 255
        <-> class_id = 1).
Proof.
  split; [reflexivity|].
  apply (masks_partition_pixels Demo.label_map 0 2 1). reflexivity.
Defined.

(** ** Merging the command line into the test configuration *)

Section ConfigFacts.

Implicit Types (d : StrDict.t pyobj) (k : string) (v : pyobj).

Lemma lookup_set d k k' v :
  StrDict.lookup k (StrDict.set k' v d)
  = if String.eqb k' k then Some v else StrDict.lookup k d.
Proof.
  induction d as [|[x w] d IH]; simpl.
  - destruct (String.eqb k' k); reflexivity.
  - destruct (String.eqb_spec x k') as [->|Hx]; simpl.
    + destruct (String.eqb k' k); reflexivity.
    + rewrite IH. destruct (String.eqb_spec x k) as [->|_]; [|reflexivity].
      destruct (String.eqb_spec k' k) as [E|_]; [congruence|reflexivity].
Qed.

Lemma lookup_absent d k :
  ~ In k (map fst d) -> StrDict.lookup k d = None.
Proof.
  induction d as [|[x w] d IH]; simpl; intros Hk; [reflexivity|].
  destruct (String.eqb_spec x k) as [->|_]; [tauto|]. apply IH. tauto.
Qed.

Lemma lookup_pop_same d k :
  StrDict.wf d -> StrDict.lookup k (StrDict.pop k d) = None.
Proof.
  unfold StrDict.wf. induction d as [|[x w] d IH]; simpl; intros Hnd; [reflexivity|].
  inversion Hnd as [|? ? Hx Hnd']; subst.
  destruct (String.eqb_spec x k) as [->|Hne].
  - apply lookup_absent, Hx.
  - simpl. destruct (String.eqb_spec x k); [contradiction|]. apply IH, Hnd'.
Qed.

Lemma lookup_pop_other d k k' :
  k' <> k -> StrDict.lookup k (StrDict.pop k' d) = StrDict.lookup k d.
Proof.
  intros Hne. induction d as [|[x w] d IH]; simpl; [reflexivity|].
  destruct (String.eqb_spec x k') as [->|Hx].
  - destruct (String.eqb_spec k' k); [contradiction|reflexivity].
  - simpl. now rewrite IH.
Qed.

Lemma mem_false_lookup d k :
  StrDict.mem k d = false <-> StrDict.lookup k d = None.
Proof.
  unfold StrDict.mem. induction d as [|[x w] d IH]; simpl; [tauto|].
  destruct (String.eqb x k); simpl; [split; discriminate|exact IH].
Qed.

Lemma set_same d k v :
  StrDict.lookup k d = Some v -> StrDict.set k v d = d.
Proof.
  induction d as [|[x w] d IH]; simpl; [discriminate|].
  destruct (String.eqb x k).
  - intros E. injection E as ->. reflexivity.
  - intros E. now rewrite IH.
Qed.

Lemma merge_as_fold d (args : Args) :
  merge_test_config d args
  = fold_left write_entry (written_entries args) (without_aug_eval d).
Proof.
  unfold merge_test_config, written_entries, without_aug_eval.
  destruct (aug_pred args), (is_slide args), (list_truthy (custom_color args));
    reflexivity.
Qed.

Lemma written_keys_distinct (args : Args) :
  NoDup (map fst (written_entries args))
  /\ ~ In "aug_eval"%string (map fst (written_entries args)).
Proof.
  unfold written_entries.
  destruct (aug_pred args), (is_slide args), (list_truthy (custom_color args));
    simpl; (split; [repeat constructor; simpl; intuition discriminate
                   | intuition discriminate]).
Qed.

Lemma fold_lookup_other (es : list (string * pyobj)) :
  forall d k, ~ In k (map fst es) ->
              StrDict.lookup k (fold_left write_entry es d) = StrDict.lookup k d.
Proof.
  induction es as [|[x w] es IH]; intros d k Hk; simpl; [reflexivity|].
  simpl in Hk. rewrite IH by tauto. unfold write_entry. simpl.
  rewrite lookup_set. destruct (String.eqb_spec x k); [tauto|reflexivity].
Qed.

Lemma fold_lookup_written (es : list (string * pyobj)) :
  forall d k v, NoDup (map fst es) -> In (k, v) es ->
                StrDict.lookup k (fold_left write_entry es d) = Some v.
Proof.
  induction es as [|[x w] es IH]; intros d k v Hnd Hin; simpl; [destruct Hin|].
  inversion Hnd as [|? ? Hx Hnd']; subst.
  destruct Hin as [E|Hin].
  - injection E as -> ->. rewrite fold_lookup_other by exact Hx.
    unfold write_entry. simpl. rewrite lookup_set. now rewrite String.eqb_refl.
  - apply IH; assumption.
Qed.

Lemma fold_fixed (es : list (string * pyobj)) d :
  (forall k v, In (k, v) es -> StrDict.lookup k d = Some v) ->
  fold_left write_entry es d = d.
Proof.
  induction es as [|[x w] es IH]; intros Hd; simpl; [reflexivity|].
  unfold write_entry at 2. simpl.
  rewrite set_same by (apply Hd; left; reflexivity).
  apply IH. intros k v Hin. apply Hd. right. exact Hin.
Qed.

Lemma without_aug_eval_lookup d k :
  StrDict.wf d ->
  StrDict.lookup k (without_aug_eval d)
  = if String.eqb "aug_eval" k then None else StrDict.lookup k d.
Proof.
  intros Hwf. unfold without_aug_eval.
  destruct (String.eqb_spec "aug_eval" k) as [<-|Hne].
  - destruct (StrDict.mem "aug_eval" d) eqn:E.
    + apply lookup_pop_same, Hwf.
    + apply mem_false_lookup, E.
  - destruct (StrDict.mem "aug_eval" d); [|reflexivity].
    apply lookup_pop_other, Hne.
Qed.

End ConfigFacts.

(** X21: a configuration with distinct keys comes back from
    [merge_test_config] without the key [aug_eval], whatever the command
    line. *)
Theorem merge_drops_aug_eval (d : StrDict.t pyobj) (args : Args) :
  StrDict.wf d ->
  StrDict.mem "aug_eval" (merge_test_config d args) = false.
Proof.
  intros Hwf. apply mem_false_lookup. rewrite merge_as_fold.
  rewrite fold_lookup_other by apply written_keys_distinct.
  now rewrite without_aug_eval_lookup.
Qed.

Lemma merge_drops_aug_eval_witness :
  StrDict.mem "aug_eval" (merge_test_config sample_config sample_args) = false.
Proof.
  apply (merge_drops_aug_eval sample_config sample_args).
  unfold StrDict.wf. simpl. repeat constructor; simpl; intuition discriminate.
Defined.

(** X22: every entry [merge_test_config] writes for the command line is
    found in the result with the written value: [aug_pred], [scales] and
    the two flip flags under [--aug_pred], [is_slide], [crop_size] and
    [stride] under [--is_slide], [custom_color] when a colour map is
    given.  A later write never replaces an earlier one. *)
Theorem merge_writes (d : StrDict.t pyobj) (args : Args) (k : string) (v : pyobj) :
  In (k, v) (written_entries args) ->
  StrDict.lookup k (merge_test_config d args) = Some v.
Proof.
  intros Hin. rewrite merge_as_fold.
  apply fold_lookup_written; [apply written_keys_distinct|exact Hin].
Qed.

Lemma merge_writes_witness :
  StrDict.lookup "scales" (merge_test_config sample_config sample_args)
  = Some (scales sample_args).
Proof.
  apply (merge_writes sample_config sample_args "scales" (scales sample_args)).
  simpl. right. left. reflexivity.
Defined.

(** X23: a key other than [aug_eval] that the command line does not
    write keeps the value the configuration had.  In particular, without
    [--aug_pred] the options [--scales], [--flip_horizontal] and
    [--flip_vertical] have no effect, and without [--is_slide] neither
    have [--crop_size] and [--stride]. *)
Theorem merge_keeps_unwritten (d : StrDict.t pyobj) (args : Args) (k : string) :
  k <> "aug_eval"%string ->
  ~ In k (map fst (written_entries args)) ->
  StrDict.lookup k (merge_test_config d args) = StrDict.lookup k d.
Proof.
  intros Hk Hout. rewrite merge_as_fold, fold_lookup_other by exact Hout.
  unfold without_aug_eval. destruct (StrDict.mem "aug_eval" d); [|reflexivity].
  apply lookup_pop_other. congruence.
Qed.

Lemma merge_keeps_unwritten_witness :
  StrDict.lookup "is_slide" (merge_test_config sample_config sample_args)
  = StrDict.lookup "is_slide" sample_config.
Proof.
  apply (merge_keeps_unwritten sample_config sample_args "is_slide").
  - discriminate.
  - simpl. intuition discriminate.
Defined.

(** X24: merging the same command line a second time changes nothing. *)
Theorem merge_idempotent (d : StrDict.t pyobj) (args : Args) :
  StrDict.wf d ->
  merge_test_config (merge_test_config d args) args = merge_test_config d args.
Proof.
  intros Hwf.
  assert (Hmem : StrDict.mem "aug_eval" (merge_test_config d args) = false).
  { apply mem_false_lookup. rewrite merge_as_fold.
    rewrite fold_lookup_other by apply written_keys_distinct.
    now rewrite without_aug_eval_lookup. }
  rewrite (merge_as_fold (merge_test_config d args)).
  unfold without_aug_eval at 1. rewrite Hmem.
  apply fold_fixed. intros k v Hin. rewrite merge_as_fold.
  apply fold_lookup_written; [apply written_keys_distinct|exact Hin].
Qed.

Lemma merge_idempotent_witness :
  merge_test_config (merge_test_config sample_config sample_args) sample_args
  = merge_test_config sample_config sample_args.
Proof.
  apply (merge_idempotent sample_config sample_args).
  unfold StrDict.wf. simpl. repeat constructor; simpl; intuition discriminate.
Defined.

(** ** The order of the annotation list *)

Section OrderFacts.

Context `{Collaborators}.

Lemma sorted_append {X : Type} (R : X -> X -> Prop) (l1 l2 : list X) :
  StronglySorted R l1 -> StronglySorted R l2 ->
  (forall x y, In x l1 -> In y l2 -> R x y) ->
  StronglySorted R (l1 ++ l2).
Proof.
  induction l1 as [|a l1 IH]; intros H1 H2 Hc; simpl; [exact H2|].
  inversion H1 as [|? ? Hs Hf]; subst. constructor.
  - apply IH; [exact Hs|exact H2|]. intros x y Hx Hy. apply Hc; [right|]; assumption.
  - apply Forall_app. split; [exact Hf|].
    apply Forall_forall. intros y Hy. apply Hc; [left; reflexivity|exact Hy].
Qed.

Lemma sorted_through_map {X Y : Type} (R : Y -> Y -> Prop) (f : X -> Y) (l : list X) :
  StronglySorted R (map f l) -> StronglySorted (fun a b => R (f a) (f b)) l.
Proof.
  induction l as [|a l IH]; simpl; intros Hs; [constructor|].
  inversion Hs as [|? ? Hs' Hf]; subst. constructor; [apply IH, Hs'|].
  rewrite Forall_forall in Hf. apply Forall_forall.
  intros b Hb. apply Hf, in_map, Hb.
Qed.

Lemma range_sorted (a n : nat) : StronglySorted Z.le (map Z.of_nat (seq a n)).
Proof.
  revert a. induction n as [|n IH]; intros a; simpl; constructor; [apply IH|].
  apply Forall_map, Forall_forall. intros k Hk. apply in_seq in Hk. lia.
Qed.

Lemma emitted_classes_sorted image_id pred (l : list Z) :
  StronglySorted Z.le l ->
  StronglySorted key_order
    (flat_map (fun c => map (fun poly : polygon => (image_id, c, [List.concat poly]))
                            (polygons_of_class pred c)) l).
Proof.
  induction l as [|c l IH]; intros Hs; cbn [flat_map]; [constructor|].
  inversion Hs as [|? ? Hs' Hf]; subst.
  apply sorted_append.
  - generalize (polygons_of_class pred c) as polys.
    induction polys as [|poly polys IHp]; simpl; constructor; [exact IHp|].
    apply Forall_map, Forall_forall. intros q _. right. simpl. lia.
  - apply IH, Hs'.
  - intros x y Hx Hy. apply in_map_iff in Hx. destruct Hx as (poly & <- & _).
    apply in_flat_map in Hy. destruct Hy as (c' & Hc' & Hy).
    apply in_map_iff in Hy. destruct Hy as (q & <- & _).
    rewrite Forall_forall in Hf. right. simpl. split; [reflexivity|apply Hf, Hc'].
Qed.

Lemma emitted_from_sorted i (shard : list string) :
  StronglySorted key_order (emitted_from i shard).
Proof.
  revert i. induction shard as [|p rest IH]; intros i; cbn [emitted_from]; [constructor|].
  apply sorted_append.
  - apply emitted_classes_sorted, range_sorted.
  - apply IH.
  - intros [[ix cx] sx] [[iy cy] sy] Hx Hy.
    unfold emitted_for_image in Hx. apply in_flat_map in Hx.
    destruct Hx as (c & _ & Hx). apply in_map_iff in Hx.
    destruct Hx as (poly & E & _). injection E as <- <- <-.
    apply emitted_from_origin in Hy. destruct Hy as (j & _ & _ & _ & -> & _).
    left. simpl. lia.
Qed.

End OrderFacts.

(** X25: the annotation list of a completed run is ordered by image id,
    and within one image by category id: the records of an image are
    contiguous, images follow the input order and classes ascend. *)
Theorem annotations_ordered `{Collaborators}
    (nranks : Z) (local_rank : nat) (image_list : list string)
    (image_dir : option string) (run : Run) :
  predict nranks local_rank image_list image_dir = Ok run ->
  StronglySorted ann_order (doc_annotations (json_data run)).
Proof.
  intros E. apply predict_ok in E. destruct E as (shard & _ & Hl & _).
  apply predict_loop_ok in Hl. destruct Hl as (_ & _ & _ & _ & Hkey & _).
  simpl in Hkey. unfold ann_order. apply sorted_through_map.
  rewrite Hkey. apply emitted_from_sorted.
Qed.

Lemma annotations_ordered_witness :
  exists run,
    @predict Demo.world 1 0 Demo.images None = Ok run
    /\ StronglySorted ann_order (doc_annotations (json_data run)).
Proof.
  destruct (@predict Demo.world 1 0 Demo.images None) as [run|e] eqn:E.
  - exists run. split; [reflexivity|].
    apply (@annotations_ordered Demo.world 1 0 Demo.images None run E).
  - vm_compute in E. discriminate.
Defined.
